(** * Authentication and session lifecycle: a shallow embedding

    The server side (server/utils/jwt.js, server/utils/database.js,
    server/routes/auth.js, server/config/passport.js) is embedded as
    state-passing functions over a [World] made of the JSON database
    file, the wall clock, the random source and the faults the file
    system is about to raise.  The client side (src/services/authService.ts)
    is embedded as a fuelled interpreter of the axios interceptor chain.

    Conventions of the model:
    - requests are handled one at a time, and the clock stands still
      while one is handled; time passes between requests;
    - a JWT is the pair of its signing key and its claims (jsonwebtoken
      with HS256: [iat] and [exp] in whole seconds, an expired or foreign
      token refused by [jwt.verify]);
    - a handler sees [req.body] and [validationResult(req)] as the
      express-validator chain left them, and [req.user] as passport or the
      [authenticateToken] middleware set it;
    - bcryptjs is a pair of unspecified functions. *)

From Stdlib Require Import ZArith List String Ascii Bool Lia.
Import ListNotations.
Open Scope string_scope.
Open Scope Z_scope.

(** ** JavaScript values *)

(** [undefined] is [None]; a string is falsy when it is empty. *)
Definition truthy (o : option string) : bool :=
  match o with
  | Some s => negb (s =? "")%string
  | None => false
  end.

(** [a || b] on strings that may be undefined. *)
Definition or_else (o : option string) (d : string) : string :=
  match o with
  | Some s => if (s =? "")%string then d else s
  | None => d
  end.

(** Template-literal rendering of a value that may be undefined. *)
Definition js_string (o : option string) : string :=
  match o with
  | Some s => s
  | None => "undefined"
  end.

Definition option_eqb {A : Type} (eqb : A -> A -> bool) (x y : option A) : bool :=
  match x, y with
  | Some a, Some b => eqb a b
  | None, None => true
  | _, _ => false
  end.

(** [Number.prototype.toString(36)] on a non-negative integer. *)
Definition digit36 (d : N) : ascii :=
  match get (N.to_nat d) "0123456789abcdefghijklmnopqrstuvwxyz" with
  | Some c => c
  | None => "0"%char
  end.

Fixpoint toString36_aux (fuel : nat) (n : N) (acc : string) : string :=
  match fuel with
  | O => acc
  | S fuel' =>
      let acc' := String (digit36 (n mod 36)%N) acc in
      if (n / 36 =? 0)%N then acc' else toString36_aux fuel' (n / 36)%N acc'
  end.

Definition toString36 (n : Z) : string :=
  toString36_aux (S (N.to_nat (N.log2 (Z.to_N n)))) (Z.to_N n) "".

(** ** Data model *)

Inductive Provider : Type := local | google | github.

(** A row of [db.users].  Optional properties are [option]s; timestamps
    are the milliseconds that the stored ISO strings denote. *)
Module User.
Record t : Type := mk {
  id : string;
  email : string;
  password : option string;
  name : option string;
  provider : Provider;
  isVerified : option bool;
  googleId : option string;
  githubId : option string;
  avatar : option string;
  createdAt : Z;
  updatedAt : Z
}.
End User.

(** The object literal handed to [createUser] and [findOrCreateUser]. *)
Module UserData.
Record t : Type := mk {
  email : string;
  password : option string;
  name : option string;
  provider : Provider;
  isVerified : option bool;
  googleId : option string;
  githubId : option string;
  avatar : option string
}.
End UserData.

(** Decoded JWT payload: the caller's properties plus the registered
    claims that [jwt.sign] adds.  [iat] and [exp] are in seconds. *)
Module Claims.
Record t : Type := mk {
  userId : option string;
  email : option string;
  iat : Z;
  exp : Z;
  aud : string;
  iss : string
}.

Definition eqb (a b : t) : bool :=
  option_eqb String.eqb (userId a) (userId b)
  && option_eqb String.eqb (email a) (email b)
  && (iat a =? iat b) && (exp a =? exp b)
  && (aud a =? aud b)%string && (iss a =? iss b)%string.
End Claims.

(** A token string.  [Jwt k c] is the compact serialisation of claims [c]
    signed (HS256) with key [k]; [Raw s] is any other string.  Two token
    strings are equal exactly when they have the same key and claims. *)
Inductive Token : Type :=
| Jwt (secret : string) (claims : Claims.t)
| Raw (s : string).

Definition Token_eqb (a b : Token) : bool :=
  match a, b with
  | Jwt k c, Jwt k' c' => (k =? k')%string && Claims.eqb c c'
  | Raw s, Raw s' => (s =? s')%string
  | _, _ => false
  end.

(** A JWT is never the empty string. *)
Definition Token_truthy (o : option Token) : bool :=
  match o with
  | Some (Jwt _ _) => true
  | Some (Raw s) => negb (s =? "")%string
  | None => false
  end.

(** A row of [db.refreshTokens]. *)
Module RefreshToken.
Record t : Type := mk {
  id : string;
  userId : string;
  token : Token;
  createdAt : Z;
  expiresAt : Z
}.
End RefreshToken.

(** The parsed content of data/users.json. *)
Record DB : Type := mkDB {
  users : list User.t;
  refreshTokens : list RefreshToken.t
}.

Definition emptyDB : DB := mkDB [] [].

(** ** The world a request runs in

    [now] is what [Date.now()] returns (milliseconds), [entropy] the
    upcoming results of the random source, [faults] the upcoming outcomes
    of the file-system round trips ([Some msg] makes the next one throw). *)
Record World : Type := mkWorld {
  db : DB;
  now : Z;
  entropy : list string;
  faults : list (option string)
}.

Definition set_db (d : DB) (w : World) : World :=
  mkWorld d (now w) (entropy w) (faults w).
Definition set_entropy (e : list string) (w : World) : World :=
  mkWorld (db w) (now w) e (faults w).
Definition set_faults (f : list (option string)) (w : World) : World :=
  mkWorld (db w) (now w) (entropy w) f.

(** ** Exceptions and the request monad *)

Inductive Exn : Type :=
| FsError (msg : string)      (* raised by fs/promises *)
| JsError (msg : string)      (* new Error(msg) *)
| TypeError (msg : string).   (* property read on undefined *)

Definition message (e : Exn) : string :=
  match e with FsError m | JsError m | TypeError m => m end.

Inductive Result (A : Type) : Type :=
| Ok (a : A)
| Throw (e : Exn).
Arguments Ok {A} a.
Arguments Throw {A} e.

Definition M (A : Type) : Type := World -> Result A * World.

Definition ret {A} (a : A) : M A := fun w => (Ok a, w).
Definition throw {A} (e : Exn) : M A := fun w => (Throw e, w).
Definition bind {A B} (m : M A) (k : A -> M B) : M B :=
  fun w => match m w with
           | (Ok a, w') => k a w'
           | (Throw e, w') => (Throw e, w')
           end.
Definition try_catch {A} (m : M A) (h : Exn -> M A) : M A :=
  fun w => match m w with
           | (Ok a, w') => (Ok a, w')
           | (Throw e, w') => h e w'
           end.

Declare Scope js_scope.
Delimit Scope js_scope with js.
Notation "x <- m ;; k" := (bind m (fun x => k))
  (at level 61, m at next level, right associativity) : js_scope.
Notation "m ;;; k" := (bind m (fun _ => k))
  (at level 61, right associativity) : js_scope.
Open Scope js_scope.

Definition Date_now : M Z := fun w => (Ok (now w), w).

(** One draw from the random source; an exhausted source yields the
    empty string (what [Math.random() = 0] renders to after [substr(2)]). *)
Definition random_draw : M string :=
  fun w => (Ok (hd "" (entropy w)), set_entropy (tl (entropy w)) w).

(** One file-system round trip; with no fault pending it goes through. *)
Definition fs_io : M unit :=
  fun w => (match hd None (faults w) with
            | None => Ok tt
            | Some msg => Throw (FsError msg)
            end,
            set_faults (tl (faults w)) w).

(** ** HTTP requests and responses *)

(** What [validationResult(req)] and [req.body] hold once the
    express-validator chain has run. *)
Module RegisterReq.
Record t : Type := mk {
  errors : list string;
  email : string;
  password : string;
  name : string
}.
End RegisterReq.

Module LoginReq.
Record t : Type := mk {
  errors : list string;
  email : string;
  password : string
}.
End LoginReq.

(** The provider profile passport hands to a strategy's verify callback. *)
Module Profile.
Record t : Type := mk {
  id : string;
  username : string;
  displayName : option string;
  emails : option (list string);
  photos : option (list string)
}.
End Profile.

(** The object literal handed to [jwt.sign]. *)
Module Payload.
Record t : Type := mk {
  userId : option string;
  email : option string
}.
End Payload.

Record CookieOptions : Type := mkCookieOptions {
  httpOnly : bool;
  secure : bool;
  sameSite : string;
  maxAge : Z
}.

Inductive CookieOp : Type :=
| NoCookie
| SetCookie (cname : string) (value : Token) (opts : CookieOptions)
| ClearCookie (cname : string).

Inductive Body : Type :=
| JsonError (error : string)
| JsonValidation (error : string) (details : list string)
| JsonErrorMessage (error : string) (msg : string)
| JsonMessage (msg : string)
| JsonAuth (msg : string) (user : User.t) (accessToken : Token)
| JsonAccessToken (accessToken : Token)
| Redirect (url : string) (token : option Token)
| NextError (e : Exn).

Record Response : Type := mkResponse {
  status : Z;
  body : Body;
  cookie : CookieOp
}.

Definition json (code : Z) (b : Body) : Response := mkResponse code b NoCookie.

(** A route handler: its whole body sits in [try], and [catch] sends the
    response [h error]. *)
Definition handle (m : M Response) (h : Exn -> Response) : World -> Response * World :=
  fun w => match m w with
           | (Ok r, w') => (r, w')
           | (Throw e, w') => (h e, w')
           end.

(** [const { password, ...userWithoutPassword } = user]. *)
Definition without_password (u : User.t) : User.t :=
  User.mk (User.id u) (User.email u) None (User.name u) (User.provider u)
    (User.isVerified u) (User.googleId u) (User.githubId u) (User.avatar u)
    (User.createdAt u) (User.updatedAt u).

(** [arr[0].value], which throws when [arr] or [arr[0]] is undefined. *)
Definition first_value (arr : option (list string)) : M string :=
  match arr with
  | Some (v :: _) => ret v
  | _ => throw (TypeError "Cannot read properties of undefined")
  end.

(** [arr?.[0]?.value]. *)
Definition first_value_opt (arr : option (list string)) : option string :=
  match arr with
  | Some (v :: _) => Some v
  | _ => None
  end.

(** [process.env]. *)
Record ProcessEnv : Type := mkEnv {
  env_ACCESS_TOKEN_SECRET : option string;
  env_REFRESH_TOKEN_SECRET : option string;
  env_NODE_ENV : option string;
  env_CLIENT_URL : option string
}.

Definition SEVEN_DAYS_MS : Z := 7 * 24 * 60 * 60 * 1000.

(** ** The client session agent (services/authService.ts)

    The two axios interceptors the [AuthService] constructor installs, run
    against a server that answers the [n]-th exchange on the wire.  The
    interceptors are global, so they also run for the requests the error
    handler itself sends. *)

Module Client.

Record Config : Type := mkConfig {
  url : string;
  method : string;
  authorization : option string;
  withCredentials : bool;
  _retry : bool
}.

(** What the agent reads of a response: [response.status] and
    [response.data.accessToken]. *)
Record HttpResponse : Type := mkHttp {
  http_status : Z;
  accessToken : option string
}.

(** [this.token], the [accessToken] entry of [localStorage],
    [window.location.href] once assigned, and the requests put on the
    wire so far, oldest first. *)
Record State : Type := mkState {
  token : option string;
  stored : option string;
  location : option string;
  wire : list Config
}.

Inductive Outcome : Type :=
| Resolved (r : HttpResponse)
| Rejected (r : HttpResponse).

Definition API_BASE_URL : string := "http://localhost:5000/api".

Definition refresh_url : string := (API_BASE_URL ++ "/auth/refresh")%string.

(** [axios.post(`${API_BASE_URL}/auth/refresh`, {}, {withCredentials: true})]. *)
Definition refresh_request : Config :=
  mkConfig refresh_url "post" None true false.

Definition set_authorization (h : option string) (c : Config) : Config :=
  mkConfig (url c) (method c) h (withCredentials c) (_retry c).

Definition set_retry (c : Config) : Config :=
  mkConfig (url c) (method c) (authorization c) (withCredentials c) true.

Definition bearer (t : option string) : option string :=
  Some ("Bearer " ++ js_string t)%string.

(** The request interceptor. *)
Definition attach (st : State) (c : Config) : Config :=
  if truthy (token st) then set_authorization (bearer (token st)) c else c.

Definition sent (c : Config) (st : State) : State :=
  mkState (token st) (stored st) (location st) (wire st ++ [c]).

(** [this.setToken(t); localStorage.setItem('accessToken', t)]. *)
Definition hold (t : option string) (st : State) : State :=
  mkState t (Some (js_string t)) (location st) (wire st).

(** [this.clearToken(); localStorage.removeItem('accessToken');
    window.location.href = '/login']. *)
Definition drop_session (st : State) : State :=
  mkState None None (Some "/login") (wire st).

Definition is_2xx (code : Z) : bool := (200 <=? code) && (code <? 300).

Section Agent.

Variable server : nat -> Config -> HttpResponse.

(** [axios(config)] with both interceptors; [None] when [fuel] runs
    out before the promise settles. *)
Fixpoint axios (fuel : nat) (config : Config) (st : State)
  : option (Outcome * State) :=
  match fuel with
  | O => None
  | S fuel' =>
      let config := attach st config in
      let response := server (List.length (wire st)) config in
      let st := sent config st in
      if is_2xx (http_status response) then Some (Resolved response, st)
      else if (http_status response =? 401) && negb (_retry config) then
        let originalRequest := set_retry config in
        match axios fuel' refresh_request st with
        | None => None
        | Some (Resolved refreshed, st) =>
            let st := hold (accessToken refreshed) st in
            axios fuel'
                  (set_authorization (bearer (accessToken refreshed)) originalRequest)
                  st
        | Some (Rejected refreshError, st) =>
            Some (Rejected refreshError, drop_session st)
        end
      else Some (Rejected response, st)
  end.

End Agent.

(** How many refresh requests went on the wire. *)
Definition refresh_attempts (st : State) : nat :=
  List.length (filter (fun c => (url c =? refresh_url)%string) (wire st)).

(** How many times a request to [u] went on the wire. *)
Definition sends_of (u : string) (st : State) : nat :=
  List.length (filter (fun c => (url c =? u)%string) (wire st)).

End Client.

(** ** The server *)

Section Server.

Variable env : ProcessEnv.

(** The password-hashing collaborator (bcryptjs): the digest of a
    password under a cost and a salt, and the digest check. *)
Variable bcrypt_digest : string -> Z -> string -> string.
Variable bcrypt_compare : string -> string -> bool.

Definition bcrypt_hash (pw : string) (saltRounds : Z) : M string :=
  salt <- random_draw ;;
  ret (bcrypt_digest pw saltRounds salt).

(** *** utils/jwt.js *)

Definition ACCESS_TOKEN_SECRET : string :=
  or_else (env_ACCESS_TOKEN_SECRET env) "access-token-secret".
Definition REFRESH_TOKEN_SECRET : string :=
  or_else (env_REFRESH_TOKEN_SECRET env) "refresh-token-secret".

(** [jwt.sign(payload, secret, {expiresIn, issuer, audience})]:
    [iat] is the clock in whole seconds and [exp] is [iat] plus the
    lifetime in seconds; undefined payload properties are dropped. *)
Definition jwt_sign (payload : Payload.t) (secret : string)
           (expiresIn : Z) (issuer audience : string) : M Token :=
  t <- Date_now ;;
  let iat := t / 1000 in
  ret (Jwt secret
         (Claims.mk (Payload.userId payload) (Payload.email payload)
                    iat (iat + expiresIn) audience issuer)).

(** [jwt.verify(token, secret, {issuer, audience})]: the signature,
    then the expiry against the clock in whole seconds, then audience
    and issuer. *)
Definition jwt_verify (token : Token) (secret issuer audience : string)
  : M Claims.t :=
  t <- Date_now ;;
  match token with
  | Raw _ => throw (JsError "jwt malformed")
  | Jwt k c =>
      if negb (k =? secret)%string then throw (JsError "invalid signature")
      else if (Claims.exp c <=? t / 1000) then throw (JsError "jwt expired")
      else if negb (Claims.aud c =? audience)%string
           then throw (JsError "jwt audience invalid")
      else if negb (Claims.iss c =? issuer)%string
           then throw (JsError "jwt issuer invalid")
      else ret c
  end.

Definition generateAccessToken (payload : Payload.t) : M Token :=
  jwt_sign payload ACCESS_TOKEN_SECRET (15 * 60)
           "secure-auth-app" "secure-auth-client".

Definition generateRefreshToken (payload : Payload.t) : M Token :=
  jwt_sign payload REFRESH_TOKEN_SECRET (7 * 24 * 60 * 60)
           "secure-auth-app" "secure-auth-client".

Definition verifyAccessToken (token : Token) : M Claims.t :=
  try_catch
    (jwt_verify token ACCESS_TOKEN_SECRET "secure-auth-app" "secure-auth-client")
    (fun _ => throw (JsError "Invalid access token")).

Definition verifyRefreshToken (token : Token) : M Claims.t :=
  try_catch
    (jwt_verify token REFRESH_TOKEN_SECRET "secure-auth-app" "secure-auth-client")
    (fun _ => throw (JsError "Invalid refresh token")).

(** *** utils/database.js *)

(** [readDB] and [writeDB] are one file-system round trip each; a
    failed write leaves the file as it was. *)
Definition readDB : M DB :=
  fs_io ;;; (fun w => (Ok (db w), w)).

Definition writeDB (data : DB) : M unit :=
  fs_io ;;; (fun w => (Ok tt, set_db data w)).

Definition generateId : M string :=
  t <- Date_now ;;
  r <- random_draw ;;
  ret (toString36 t ++ r)%string.

(** [{ id, ...userData, createdAt, updatedAt }]. *)
Definition new_user (id : string) (userData : UserData.t) (created updated : Z)
  : User.t :=
  User.mk id (UserData.email userData) (UserData.password userData)
    (UserData.name userData) (UserData.provider userData)
    (UserData.isVerified userData) (UserData.googleId userData)
    (UserData.githubId userData) (UserData.avatar userData)
    created updated.

Definition createUser (userData : UserData.t) : M User.t :=
  d <- readDB ;;
  id <- generateId ;;
  created <- Date_now ;;
  updated <- Date_now ;;
  let user := new_user id userData created updated in
  writeDB (mkDB (users d ++ [user]) (refreshTokens d)) ;;;
  ret user.

Definition getUserByEmail (email : string) : M (option User.t) :=
  d <- readDB ;;
  ret (find (fun user => (User.email user =? email)%string) (users d)).


(** The assignments [findOrCreateUser] makes to the user it found. *)
Definition oauth_update (userData : UserData.t) (t : Z) (user : User.t) : User.t :=
  User.mk (User.id user) (User.email user) (User.password user)
    (User.name user) (User.provider user) (User.isVerified user)
    (if truthy (UserData.googleId userData)
     then UserData.googleId userData else User.googleId user)
    (if truthy (UserData.githubId userData)
     then UserData.githubId userData else User.githubId user)
    (if truthy (UserData.avatar userData)
     then UserData.avatar userData else User.avatar user)
    (User.createdAt user) t.

(** [find] returns the array's own object, so assigning to it changes
    the array in place: the first element satisfying [p] becomes [f] of it. *)
Fixpoint update_first {A} (p : A -> bool) (f : A -> A) (l : list A) : list A :=
  match l with
  | [] => []
  | x :: rest => if p x then f x :: rest else x :: update_first p f rest
  end.

Definition findOrCreateUser (userData : UserData.t) : M User.t :=
  d <- readDB ;;
  let by_email := fun u => (User.email u =? UserData.email userData)%string in
  match find by_email (users d) with
  | None =>
      id <- generateId ;;
      created <- Date_now ;;
      updated <- Date_now ;;
      let user := new_user id userData created updated in
      writeDB (mkDB (users d ++ [user]) (refreshTokens d)) ;;;
      ret user
  | Some user =>
      t <- Date_now ;;
      let user' := oauth_update userData t user in
      writeDB (mkDB (update_first by_email (oauth_update userData t) (users d))
                    (refreshTokens d)) ;;;
      ret user'
  end.

Definition saveRefreshToken (userId : string) (token : Token) : M RefreshToken.t :=
  d <- readDB ;;
  id <- generateId ;;
  created <- Date_now ;;
  t <- Date_now ;;
  let refreshToken := RefreshToken.mk id userId token created (t + SEVEN_DAYS_MS) in
  writeDB (mkDB (users d) (refreshTokens d ++ [refreshToken])) ;;;
  ret refreshToken.

Definition getRefreshToken (token : Token) : M (option RefreshToken.t) :=
  d <- readDB ;;
  t <- Date_now ;;
  ret (find (fun rt => Token_eqb (RefreshToken.token rt) token
                       && (t <? RefreshToken.expiresAt rt))
            (refreshTokens d)).

Definition deleteRefreshToken (token : Token) : M unit :=
  d <- readDB ;;
  writeDB (mkDB (users d)
                (filter (fun rt => negb (Token_eqb (RefreshToken.token rt) token))
                        (refreshTokens d))).

Definition deleteUserRefreshTokens (userId : string) : M unit :=
  d <- readDB ;;
  writeDB (mkDB (users d)
                (filter (fun rt => negb (RefreshToken.userId rt =? userId)%string)
                        (refreshTokens d))).

(** *** config/passport.js *)

Definition google_userData (profile : Profile.t) : M UserData.t :=
  email <- first_value (Profile.emails profile) ;;
  avatar <- first_value (Profile.photos profile) ;;
  ret (UserData.mk email None (Profile.displayName profile) google None
                   (Some (Profile.id profile)) None (Some avatar)).

Definition github_email (profile : Profile.t) : string :=
  or_else (first_value_opt (Profile.emails profile))
          (Profile.username profile ++ "@github.local")%string.

Definition github_userData (profile : Profile.t) : M UserData.t :=
  let email := github_email profile in
  let name := or_else (Profile.displayName profile) (Profile.username profile) in
  avatar <- first_value (Profile.photos profile) ;;
  ret (UserData.mk email None (Some name) github None
                   None (Some (Profile.id profile)) (Some avatar)).

(** The verify callbacks: [Ok user] is [done(null, user)], [Throw e] is
    [done(e, null)]. *)
Definition GoogleStrategy_verify (profile : Profile.t) : M User.t :=
  userData <- google_userData profile ;;
  findOrCreateUser userData.

Definition GitHubStrategy_verify (profile : Profile.t) : M User.t :=
  userData <- github_userData profile ;;
  findOrCreateUser userData.

(** *** routes/auth.js *)

Definition refresh_cookie (refreshToken : Token) : CookieOp :=
  SetCookie "refreshToken" refreshToken
    (mkCookieOptions true
       (option_eqb String.eqb (env_NODE_ENV env) (Some "production"))
       "strict" SEVEN_DAYS_MS).

Definition is_empty {A} (l : list A) : bool :=
  match l with [] => true | _ => false end.

(** The statements /register, /login and both OAuth callbacks share:
    mint the token pair and store the refresh token. *)
Definition issue_tokens (user : User.t) : M (Token * Token) :=
  accessToken <- generateAccessToken
                   (Payload.mk (Some (User.id user)) (Some (User.email user))) ;;
  refreshToken <- generateRefreshToken (Payload.mk (Some (User.id user)) None) ;;
  saveRefreshToken (User.id user) refreshToken ;;;
  ret (accessToken, refreshToken).

Definition post_register (req : RegisterReq.t) : World -> Response * World :=
  handle
    (if negb (is_empty (RegisterReq.errors req)) then
       ret (json 400 (JsonValidation "Validation failed" (RegisterReq.errors req)))
     else
       existingUser <- getUserByEmail (RegisterReq.email req) ;;
       match existingUser with
       | Some _ => ret (json 409 (JsonError "User already exists"))
       | None =>
           hashedPassword <- bcrypt_hash (RegisterReq.password req) 12 ;;
           user <- createUser
                     (UserData.mk (RegisterReq.email req) (Some hashedPassword)
                                  (Some (RegisterReq.name req)) local (Some true)
                                  None None None) ;;
           tokens <- issue_tokens user ;;
           ret (mkResponse 201
                  (JsonAuth "User registered successfully"
                            (without_password user) (fst tokens))
                  (refresh_cookie (snd tokens)))
       end)
    (fun error =>
       json 500 (JsonErrorMessage "Registration failed"
                   (if option_eqb String.eqb (env_NODE_ENV env) (Some "development")
                    then message error else "Internal server error"))).

Definition post_login (req : LoginReq.t) : World -> Response * World :=
  handle
    (if negb (is_empty (LoginReq.errors req)) then
       ret (json 400 (JsonValidation "Validation failed" (LoginReq.errors req)))
     else
       found <- getUserByEmail (LoginReq.email req) ;;
       match found with
       | None => ret (json 401 (JsonError "Invalid credentials"))
       | Some user =>
           if negb (truthy (User.password user)) then
             ret (json 401 (JsonError "Invalid credentials"))
           else
             let isValidPassword :=
               bcrypt_compare (LoginReq.password req) (js_string (User.password user)) in
             if negb isValidPassword then
               ret (json 401 (JsonError "Invalid credentials"))
             else
               tokens <- issue_tokens user ;;
               ret (mkResponse 200
                      (JsonAuth "Login successful" (without_password user) (fst tokens))
                      (refresh_cookie (snd tokens)))
       end)
    (fun _ => json 500 (JsonError "Login failed")).

(** [cookies] is [req.cookies.refreshToken]. *)
Definition post_refresh (cookies : option Token) : World -> Response * World :=
  handle
    (match cookies with
     | None => ret (json 401 (JsonError "Refresh token required"))
     | Some refreshToken =>
         if negb (Token_truthy cookies) then
           ret (json 401 (JsonError "Refresh token required"))
         else
           decoded <- verifyRefreshToken refreshToken ;;
           storedToken <- getRefreshToken refreshToken ;;
           match storedToken with
           | None => ret (json 403 (JsonError "Invalid refresh token"))
           | Some _ =>
               accessToken <- generateAccessToken
                                (Payload.mk (Claims.userId decoded)
                                            (Claims.email decoded)) ;;
               ret (json 200 (JsonAccessToken accessToken))
           end
     end)
    (fun _ => json 403 (JsonError "Invalid refresh token")).

Definition post_logout (cookies : option Token) : World -> Response * World :=
  handle
    ((match cookies with
      | Some refreshToken =>
          if Token_truthy cookies then deleteRefreshToken refreshToken else ret tt
      | None => ret tt
      end) ;;;
     ret (mkResponse 200 (JsonMessage "Logout successful") (ClearCookie "refreshToken")))
    (fun _ => json 500 (JsonError "Logout failed")).

(** [user] is [req.user], set by the [authenticateToken] middleware. *)
Definition post_logout_all (user : User.t) : World -> Response * World :=
  handle
    (deleteUserRefreshTokens (User.id user) ;;;
     ret (mkResponse 200 (JsonMessage "Logged out from all devices")
                     (ClearCookie "refreshToken")))
    (fun _ => json 500 (JsonError "Logout failed")).

Definition frontendUrl : string :=
  or_else (env_CLIENT_URL env) "http://localhost:5173".

(** The handler behind [passport.authenticate] on both callback routes;
    [user] is [req.user]. *)
Definition oauth_callback (user : User.t) : World -> Response * World :=
  handle
    (tokens <- issue_tokens user ;;
     ret (mkResponse 302
            (Redirect (frontendUrl ++ "/oauth/callback?token=")%string
                      (Some (fst tokens)))
            (refresh_cookie (snd tokens))))
    (fun _ => json 302 (Redirect (frontendUrl ++ "/login?error=oauth_failed")%string None)).

(** A callback route end to end: passport runs the strategy's verify
    callback, passes an error to [next], and otherwise calls the handler
    with the user the callback produced. *)
Definition passport_callback (verify : M User.t) : World -> Response * World :=
  fun w => match verify w with
           | (Ok user, w') => oauth_callback user w'
           | (Throw e, w') => (json 500 (NextError e), w')
           end.

Definition get_google_callback (profile : Profile.t) : World -> Response * World :=
  passport_callback (GoogleStrategy_verify profile).

Definition get_github_callback (profile : Profile.t) : World -> Response * World :=
  passport_callback (GitHubStrategy_verify profile).

(** *** The subsystem as a transition system *)

Inductive Event : Type :=
| Register (req : RegisterReq.t)
| Login (req : LoginReq.t)
| Refresh (cookies : option Token)
| Logout (cookies : option Token)
| LogoutAll (user : User.t)
| GoogleCallback (profile : Profile.t)
| GithubCallback (profile : Profile.t)
| Environment (elapsed : Z) (rnd : list string) (flt : list (option string)).

(** Between requests time passes and the environment decides what the
    random source and the file system will do next. *)
Definition environment (elapsed : Z) (rnd : list string) (flt : list (option string))
           (w : World) : World :=
  mkWorld (db w) (now w + Z.max 0 elapsed) rnd flt.

Definition step (e : Event) (w : World) : option Response * World :=
  let answered (r : Response * World) := (Some (fst r), snd r) in
  match e with
  | Register req => answered (post_register req w)
  | Login req => answered (post_login req w)
  | Refresh c => answered (post_refresh c w)
  | Logout c => answered (post_logout c w)
  | LogoutAll u => answered (post_logout_all u w)
  | GoogleCallback p => answered (get_google_callback p w)
  | GithubCallback p => answered (get_github_callback p w)
  | Environment dt rnd flt => (None, environment dt rnd flt w)
  end.

Fixpoint run (es : list Event) (w : World) : World :=
  match es with
  | [] => w
  | e :: rest => run rest (snd (step e w))
  end.

(** The refresh token a response hands out, if any. *)
Definition issued (r : option Response) : option Token :=
  match r with
  | Some (mkResponse _ _ (SetCookie _ t _)) => Some t
  | _ => None
  end.

(** *** config/passport.js, session serialisation *)



(** The token a response carries in its body, if any. *)
Definition body_token (b : Body) : option Token :=
  match b with
  | JsonAuth _ _ t => Some t
  | JsonAccessToken t => Some t
  | Redirect _ t => t
  | _ => None
  end.

(** The user a response carries in its body, if any. *)
Definition body_user (b : Body) : option User.t :=
  match b with
  | JsonAuth _ u _ => Some u
  | _ => None
  end.

(** Two records of the same account: all that an operation never rewrites. *)
Definition same_account (u u' : User.t) : Prop :=
  User.id u' = User.id u /\ User.email u' = User.email u
  /\ User.password u' = User.password u /\ User.name u' = User.name u
  /\ User.provider u' = User.provider u /\ User.isVerified u' = User.isVerified u
  /\ User.createdAt u' = User.createdAt u.

(** What holds of every refresh-token record the subsystem writes: an
    owner among the users, a seven-day life, and a token signed under the
    refresh secret for that owner that expires no later than the record. *)
Definition record_consistent (d : DB) (r : RefreshToken.t) : Prop :=
  (exists u, In u (users d) /\ User.id u = RefreshToken.userId r)
  /\ RefreshToken.expiresAt r = RefreshToken.createdAt r + SEVEN_DAYS_MS
  /\ exists c, RefreshToken.token r = Jwt REFRESH_TOKEN_SECRET c
               /\ Claims.userId c = Some (RefreshToken.userId r)
               /\ Claims.email c = None
               /\ Claims.aud c = "secure-auth-client"
               /\ Claims.iss c = "secure-auth-app"
               /\ Claims.exp c * 1000 <= RefreshToken.expiresAt r.

Definition store_consistent (d : DB) : Prop :=
  forall r, In r (refreshTokens d) -> record_consistent d r.


(** *** Store invariants and trace predicates *)

(** Every stored refresh token is a JWT under the refresh secret whose
    [userId] claim is the record's owner. *)
Definition store_ok (d : DB) : Prop :=
  forall r, In r (refreshTokens d) ->
    exists c, RefreshToken.token r = Jwt REFRESH_TOKEN_SECRET c
              /\ Claims.userId c = Some (RefreshToken.userId r).

Definition unique_emails (d : DB) : Prop :=
  NoDup (map User.email (users d)).

(** No record of the store holds token [t]. *)
Definition absent (t : Token) (d : DB) : Prop :=
  forall r, In r (refreshTokens d) -> RefreshToken.token r <> t.

(** Along the trace [es] started in [w], no response hands out [t]. *)
Fixpoint never_issues (t : Token) (es : list Event) (w : World) : Prop :=
  match es with
  | [] => True
  | e :: rest =>
      issued (fst (step e w)) <> Some t /\ never_issues t rest (snd (step e w))
  end.

(** How one step may change [db.refreshTokens]. *)
Inductive tokens_change (old new : list RefreshToken.t) (handed : option Token) : Prop :=
| tokens_same : new = old -> tokens_change old new handed
| tokens_filtered p : new = filter p old -> tokens_change old new handed
| tokens_pushed r c :
    new = (old ++ [r])%list ->
    handed = Some (RefreshToken.token r) ->
    RefreshToken.token r = Jwt REFRESH_TOKEN_SECRET c ->
    Claims.userId c = Some (RefreshToken.userId r) ->
    tokens_change old new handed.




(** The claims [jwt.sign] produces at clock [t] (milliseconds) for an
    access token and for a refresh token. *)
Definition access_claims (userId email : option string) (t : Z) : Claims.t :=
  Claims.mk userId email (t / 1000) (t / 1000 + 15 * 60)
            "secure-auth-client" "secure-auth-app".

Definition refresh_claims (userId : option string) (t : Z) : Claims.t :=
  Claims.mk userId None (t / 1000) (t / 1000 + 7 * 24 * 60 * 60)
            "secure-auth-client" "secure-auth-app".


Definition invalid_credentials : Response := json 401 (JsonError "Invalid credentials").

(** The three ways local resolution fails. *)
Definition login_fails (req : LoginReq.t) (d : DB) : Prop :=
  let found := find (fun u => (User.email u =? LoginReq.email req)%string) (users d) in
  found = None
  \/ (exists u, found = Some u /\ truthy (User.password u) = false)
  \/ (exists u, found = Some u /\ truthy (User.password u) = true
                /\ bcrypt_compare (LoginReq.password req)
                                  (js_string (User.password u)) = false).


Definition invalid_refresh_token : Response := json 403 (JsonError "Invalid refresh token").

(** *** Equality tests decide equality *)

Lemma option_string_eqb_eq (x y : option string) :
  option_eqb String.eqb x y = true <-> x = y.
Proof.
  destruct x as [a|], y as [b|]; simpl; split; intro H;
    try discriminate; try reflexivity.
  - apply String.eqb_eq in H. now subst.
  - injection H as ->. apply String.eqb_refl.
Qed.

Lemma Claims_eqb_eq (a b : Claims.t) : Claims.eqb a b = true <-> a = b.
Proof.
  destruct a as [u e i x au ic], b as [u' e' i' x' au' ic'].
  unfold Claims.eqb; simpl.
  rewrite !andb_true_iff, !option_string_eqb_eq, !Z.eqb_eq, !String.eqb_eq.
  split.
  - intros [[[[[-> ->] ->] ->] ->] ->]. reflexivity.
  - intros H. injection H as -> -> -> -> -> ->. repeat split.
Qed.

Lemma Token_eqb_eq (a b : Token) : Token_eqb a b = true <-> a = b.
Proof.
  destruct a as [k c|s], b as [k' c'|s']; simpl; split; intro H;
    try discriminate.
  - apply andb_true_iff in H as [Hk Hc].
    apply String.eqb_eq in Hk. apply Claims_eqb_eq in Hc. now subst.
  - injection H as -> ->. apply andb_true_iff. split.
    + apply String.eqb_refl.
    + now apply Claims_eqb_eq.
  - apply String.eqb_eq in H. now subst.
  - injection H as ->. apply String.eqb_refl.
Qed.

Lemma Token_eqb_refl (a : Token) : Token_eqb a a = true.
Proof. now apply Token_eqb_eq. Qed.

Lemma Token_eqb_neq (a b : Token) : Token_eqb a b = false <-> a <> b.
Proof.
  split.
  - intros H E. apply Token_eqb_eq in E. congruence.
  - intros H. destruct (Token_eqb a b) eqn:E; [|reflexivity].
    apply Token_eqb_eq in E. contradiction.
Qed.


(** *** Proof automation for the request monad *)

Arguments toString36 : simpl never.

Ltac unfold_server :=
  unfold step, post_register, post_login, post_refresh, post_logout,
    post_logout_all, get_google_callback, get_github_callback,
    passport_callback, oauth_callback, GoogleStrategy_verify,
    GitHubStrategy_verify, google_userData, github_userData, issue_tokens,
    handle, createUser, findOrCreateUser, getUserByEmail, saveRefreshToken,
    getRefreshToken, deleteRefreshToken, deleteUserRefreshTokens,
    verifyRefreshToken, generateAccessToken, generateRefreshToken, jwt_sign,
    jwt_verify, generateId, bcrypt_hash, readDB, writeDB, try_catch, bind,
    ret, throw, fs_io, random_draw, Date_now, first_value, json, environment in *.

Ltac break_match :=
  match goal with
  | |- context [match ?x with _ => _ end] =>
      lazymatch x with
      | context [match _ with _ => _ end] => fail
      | _ => destruct x eqn:?
      end
  end.

Ltac run_server := unfold_server; simpl in *; repeat (break_match; simpl in * ).

Lemma step_tokens (e : Event) (w : World) :
  tokens_change (refreshTokens (db w)) (refreshTokens (db (snd (step e w))))
                (issued (fst (step e w))).
Proof.
  destruct w as [[us rts] t en fl]; destruct e.
  all: run_server.
  all: try (apply tokens_same; reflexivity).
  all: try (eapply tokens_filtered; reflexivity).
  all: try (eapply tokens_pushed; simpl; reflexivity).
Qed.



(** *** Invariants of the transition system *)

Lemma step_store_ok (e : Event) (w : World) :
  store_ok (db w) -> store_ok (db (snd (step e w))).
Proof.
  intros Hok r Hin.
  destruct (step_tokens e w) as [E | p E | r' c E _ Hjwt Hown]; rewrite E in Hin.
  - now apply Hok.
  - apply filter_In in Hin as [Hin _]. now apply Hok.
  - apply in_app_or in Hin as [Hin | [<- | []]].
    + now apply Hok.
    + now exists c.
Qed.

Lemma run_store_ok (es : list Event) (w : World) :
  store_ok (db w) -> store_ok (db (run es w)).
Proof.
  revert w. induction es as [|e es IH]; intros w Hok; simpl; [assumption|].
  apply IH. now apply step_store_ok.
Qed.

Lemma store_ok_empty : store_ok emptyDB.
Proof. intros r []. Qed.

Lemma step_absent (t : Token) (e : Event) (w : World) :
  absent t (db w) ->
  issued (fst (step e w)) <> Some t ->
  absent t (db (snd (step e w))).
Proof.
  intros Habs Hiss r Hin.
  destruct (step_tokens e w) as [E | p E | r' c E Hh _ _]; rewrite E in Hin.
  - now apply Habs.
  - apply filter_In in Hin as [Hin _]. now apply Habs.
  - apply in_app_or in Hin as [Hin | [<- | []]].
    + now apply Habs.
    + intros Heq. apply Hiss. now rewrite Hh, Heq.
Qed.

Lemma run_absent (t : Token) (es : list Event) (w : World) :
  absent t (db w) -> never_issues t es w -> absent t (db (run es w)).
Proof.
  revert w. induction es as [|e es IH]; intros w Habs Hnever; simpl; [assumption|].
  destruct Hnever as [Hiss Hrest].
  apply IH; [now apply step_absent | assumption].
Qed.





(** *** Lookups *)


Lemma find_token_absent (t : Token) (d : DB) (q : RefreshToken.t -> bool) :
  absent t d ->
  find (fun rt => Token_eqb (RefreshToken.token rt) t && q rt) (refreshTokens d) = None.
Proof.
  unfold absent. induction (refreshTokens d) as [|r rs IH]; simpl; intros Habs;
    [reflexivity|].
  assert (Hneq : Token_eqb (RefreshToken.token r) t = false)
    by (apply Token_eqb_neq; apply Habs; now left).
  rewrite Hneq. simpl. apply IH. intros r' Hin. apply Habs. now right.
Qed.

(** *** Registration *)




(** *** Login *)

Lemma login_rejects (req : LoginReq.t) (w : World) :
  LoginReq.errors req = [] -> faults w = [] ->
  login_fails req (db w) ->
  post_login req w = (invalid_credentials, w).
Proof.
  intros Herr Hfl Hfail. destruct w as [[us rts] t en fl]. simpl in *. subst fl.
  unfold login_fails in Hfail. simpl in Hfail.
  unfold_server. simpl. rewrite Herr. simpl.
  destruct Hfail as [Hf | [(u & Hf & Hp) | (u & Hf & Hp & Hc)]]; rewrite Hf; simpl.
  - reflexivity.
  - rewrite Hp. reflexivity.
  - rewrite Hp. simpl. rewrite Hc. reflexivity.
Qed.

Lemma login_accepts (req : LoginReq.t) (w : World) (u : User.t) :
  LoginReq.errors req = [] -> faults w = [] ->
  find (fun x => (User.email x =? LoginReq.email req)%string) (users (db w)) = Some u ->
  truthy (User.password u) = true ->
  bcrypt_compare (LoginReq.password req) (js_string (User.password u)) = true ->
  fst (post_login req w) =
    mkResponse 200
      (JsonAuth "Login successful" (without_password u)
         (Jwt ACCESS_TOKEN_SECRET
              (access_claims (Some (User.id u)) (Some (User.email u)) (now w))))
      (refresh_cookie
         (Jwt REFRESH_TOKEN_SECRET (refresh_claims (Some (User.id u)) (now w)))).
Proof.
  intros Herr Hfl Hf Hp Hc. destruct w as [[us rts] t en fl]. simpl in *. subst fl.
  unfold_server. simpl. rewrite Herr. simpl. rewrite Hf. simpl.
  rewrite Hp. simpl. rewrite Hc. reflexivity.
Qed.

Lemma login_rejection_has_cause (req : LoginReq.t) (w : World) :
  fst (post_login req w) = invalid_credentials -> login_fails req (db w).
Proof.
  destruct w as [[us rts] clock en fl]. unfold login_fails.
  unfold_server. simpl.
  repeat (break_match; simpl in * ); intros H; try discriminate H.
  all: try (left; reflexivity).
  - right. left. eexists. split; [reflexivity | now apply negb_true_iff].
  - right. right. eexists. split; [reflexivity|].
    split; [now apply negb_false_iff | now apply negb_true_iff].
Qed.

(** C7 — Login answers with the one error 401 "Invalid credentials" in
    exactly three cases (no user for the email, a user without a password
    digest, a digest check that fails): that answer never has another
    cause, and in each of the three cases a valid request gets the same
    response and changes nothing; for a user whose digest matches, Login
    succeeds and returns that user, password stripped. *)
Theorem login_invalid_credentials_exactly (req : LoginReq.t) (w : World) :
  (fst (post_login req w) = invalid_credentials -> login_fails req (db w))
  /\ (LoginReq.errors req = [] ->
      faults w = [] ->
      (login_fails req (db w) -> post_login req w = (invalid_credentials, w))
      /\ (forall u,
            find (fun x => (User.email x =? LoginReq.email req)%string) (users (db w))
            = Some u ->
            truthy (User.password u) = true ->
            bcrypt_compare (LoginReq.password req) (js_string (User.password u)) = true ->
            fst (post_login req w) =
              mkResponse 200
                (JsonAuth "Login successful" (without_password u)
                   (Jwt ACCESS_TOKEN_SECRET
                        (access_claims (Some (User.id u)) (Some (User.email u)) (now w))))
                (refresh_cookie
                   (Jwt REFRESH_TOKEN_SECRET
                        (refresh_claims (Some (User.id u)) (now w)))))).
Proof.
  split; [apply login_rejection_has_cause|].
  intros Herr Hfl. split.
  - now apply login_rejects.
  - intros u. now apply login_accepts.
Qed.

(** *** Refresh *)

Lemma find_live_token (t : Token) (clock : Z) (rts : list RefreshToken.t) (r : RefreshToken.t) :
  In r rts ->
  RefreshToken.token r = t ->
  clock < RefreshToken.expiresAt r ->
  exists r', find (fun rt => Token_eqb (RefreshToken.token rt) t
                             && (clock <? RefreshToken.expiresAt rt)) rts = Some r'.
Proof.
  intros Hin Ht Hexp.
  destruct (find _ rts) as [r'|] eqn:Hf; [now exists r'|].
  apply (find_none _ _ Hf) in Hin. simpl in Hin.
  rewrite Ht, Token_eqb_refl in Hin. simpl in Hin.
  apply Z.ltb_ge in Hin. lia.
Qed.

Lemma refresh_accepts (w : World) (c : Claims.t) (r : RefreshToken.t) :
  In r (refreshTokens (db w)) ->
  RefreshToken.token r = Jwt REFRESH_TOKEN_SECRET c ->
  Claims.aud c = "secure-auth-client" ->
  Claims.iss c = "secure-auth-app" ->
  faults w = [] ->
  now w / 1000 < Claims.exp c ->
  now w < RefreshToken.expiresAt r ->
  post_refresh (Some (RefreshToken.token r)) w =
    (json 200 (JsonAccessToken
                 (Jwt ACCESS_TOKEN_SECRET
                      (access_claims (Claims.userId c) (Claims.email c) (now w)))),
     w).
Proof.
  intros Hin Ht Haud Hiss Hfl Hjwt Hrow.
  destruct (find_live_token _ (now w) _ _ Hin eq_refl Hrow) as (r' & Hf).
  destruct w as [[us rts] t en fl]. simpl in *. subst fl.
  rewrite Ht in *. unfold_server. simpl.
  rewrite String.eqb_refl. simpl.
  assert (Hle : (Claims.exp c <=? t / 1000) = false) by (apply Z.leb_gt; lia).
  rewrite Hle, Haud, Hiss. simpl. rewrite Hf. reflexivity.
Qed.

Lemma refresh_repeats (t : Token) (w : World) (resp : Response) (n : nat) :
  post_refresh (Some t) w = (resp, w) ->
  run (repeat (Refresh (Some t)) n) w = w.
Proof.
  intros H. induction n as [|n IH]; simpl; [reflexivity|].
  rewrite H. simpl. exact IH.
Qed.

(** C1 — For every refresh token that was issued and is still in the
    store, a Refresh presenting it while neither the record's [expiresAt]
    nor the token's own signed [exp] (whole seconds, seven days after it
    was minted) has passed succeeds with a freshly minted access token and
    leaves the world, hence the stored token, exactly as it was; so the
    same value is accepted any number of times. *)
Theorem refresh_reusable_while_token_unexpired
        (w w0 : World) (payload : Payload.t) (r : RefreshToken.t) :
  fst (generateRefreshToken payload w0) = Ok (RefreshToken.token r) ->
  In r (refreshTokens (db w)) ->
  faults w = [] ->
  now w < RefreshToken.expiresAt r ->
  now w / 1000 < now w0 / 1000 + 7 * 24 * 60 * 60 ->
  post_refresh (Some (RefreshToken.token r)) w =
    (json 200 (JsonAccessToken
                 (Jwt ACCESS_TOKEN_SECRET
                      (access_claims (Payload.userId payload) (Payload.email payload)
                                     (now w)))),
     w)
  /\ forall n, run (repeat (Refresh (Some (RefreshToken.token r))) n) w = w.
Proof.
  intros Hmint Hin Hfl Hrow Hjwt.
  assert (Hr : post_refresh (Some (RefreshToken.token r)) w =
    (json 200 (JsonAccessToken
                 (Jwt ACCESS_TOKEN_SECRET
                      (access_claims (Payload.userId payload) (Payload.email payload)
                                     (now w)))), w)).
  { unfold generateRefreshToken, jwt_sign, bind, ret, Date_now in Hmint.
    simpl in Hmint. injection Hmint as Hmint.
    rewrite (refresh_accepts w _ r Hin (eq_sym Hmint)); simpl; auto. }
  split; [exact Hr|]. intros n. eapply refresh_repeats. exact Hr.
Qed.


Lemma refresh_absent_rejected (t : Token) (w : World) :
  absent t (db w) ->
  fst (post_refresh (Some t) w) = invalid_refresh_token
  \/ fst (post_refresh (Some t) w) = json 401 (JsonError "Refresh token required").
Proof.
  intros Habs. destruct w as [[us rts] clock en fl].
  pose proof (find_token_absent t _ (fun rt => clock <? RefreshToken.expiresAt rt) Habs)
    as Hf.
  simpl in Hf. unfold_server. simpl.
  repeat (break_match; simpl in * ); auto; congruence.
Qed.

Lemma refresh_absent_jwt_rejected (k : string) (c : Claims.t) (w : World) :
  absent (Jwt k c) (db w) ->
  fst (post_refresh (Some (Jwt k c)) w) = invalid_refresh_token.
Proof.
  intros Habs. destruct (refresh_absent_rejected _ w Habs) as [H | H]; [exact H|].
  exfalso. revert H. destruct w as [[us rts] clock en fl]. unfold_server. simpl.
  repeat (break_match; simpl in * ); discriminate.
Qed.

Lemma getRefreshToken_absent (t : Token) (w : World) :
  absent t (db w) -> faults w = [] -> getRefreshToken t w = (Ok None, w).
Proof.
  intros Habs Hfl. destruct w as [[us rts] clock en fl]. simpl in Hfl. subst fl.
  pose proof (find_token_absent t _ (fun rt => clock <? RefreshToken.expiresAt rt) Habs)
    as Hf.
  simpl in Hf. unfold_server. simpl. now rewrite Hf.
Qed.

(** *** Logout *)

Lemma logout_removes (k : string) (c : Claims.t) (w : World) :
  status (fst (post_logout (Some (Jwt k c)) w)) = 200 ->
  absent (Jwt k c) (db (snd (post_logout (Some (Jwt k c)) w))).
Proof.
  destruct w as [[us rts] clock en fl]. unfold_server. simpl.
  repeat (break_match; simpl in * ); try discriminate.
  intros _ r Hin. apply filter_In in Hin as [_ Hneg].
  apply negb_true_iff in Hneg. now apply Token_eqb_neq.
Qed.

(** C4 — For every stored refresh token, once a Logout presenting it
    has completed, every later Refresh presenting the same value is
    answered 403 "Invalid refresh token", the store lookup finding
    nothing, for as long as no response hands out that value again. *)
Theorem logout_then_refresh_rejected
        (w : World) (r : RefreshToken.t) (es : list Event) :
  store_ok (db w) ->
  In r (refreshTokens (db w)) ->
  let t := RefreshToken.token r in
  let w1 := snd (post_logout (Some t) w) in
  status (fst (post_logout (Some t) w)) = 200 ->
  never_issues t es w1 ->
  fst (post_refresh (Some t) (run es w1)) = invalid_refresh_token
  /\ (faults (run es w1) = [] ->
      getRefreshToken t (run es w1) = (Ok None, run es w1)).
Proof.
  intros Hok Hin t w1 Hdone Hnever.
  destruct (Hok r Hin) as (c & Hjwt & _).
  subst t w1. rewrite Hjwt in *.
  assert (Habs : absent (Jwt REFRESH_TOKEN_SECRET c)
                        (db (run es (snd (post_logout (Some (Jwt REFRESH_TOKEN_SECRET c)) w))))).
  { apply run_absent; [now apply logout_removes | assumption]. }
  split.
  - now apply refresh_absent_jwt_rejected.
  - intros Hfl. now apply getRefreshToken_absent.
Qed.

(** *** Logout from all devices *)




(** *** External identities *)

Lemma update_first_found {A} (p : A -> bool) (f : A -> A) (l : list A) (x : A) :
  find p l = Some x ->
  exists l1 l2, l = (l1 ++ x :: l2)%list
                /\ update_first p f l = (l1 ++ f x :: l2)%list
                /\ forall y, In y l1 -> p y = false.
Proof.
  induction l as [|a l IH]; simpl; [discriminate|].
  destruct (p a) eqn:Hp.
  - intros [= ->]. exists [], l. repeat split. intros y [].
  - intros Hf. destruct (IH Hf) as (l1 & l2 & -> & Hu & Hl1).
    exists (a :: l1), l2. simpl. rewrite Hu. repeat split.
    intros y [<- | Hy]; auto.
Qed.

Lemma findOrCreateUser_existing (userData : UserData.t) (w : World) (u : User.t) :
  faults w = [] ->
  find (fun x => (User.email x =? UserData.email userData)%string) (users (db w))
  = Some u ->
  findOrCreateUser userData w =
    (Ok (oauth_update userData (now w) u),
     set_db (mkDB (update_first
                     (fun x => (User.email x =? UserData.email userData)%string)
                     (oauth_update userData (now w)) (users (db w)))
                  (refreshTokens (db w))) w).
Proof.
  intros Hfl Hf. destruct w as [[us rts] clock en fl]. simpl in *. subst fl.
  unfold_server. simpl. rewrite Hf. reflexivity.
Qed.

Lemma findOrCreateUser_new (userData : UserData.t) (w : World) :
  faults w = [] ->
  find (fun x => (User.email x =? UserData.email userData)%string) (users (db w))
  = None ->
  let user := new_user (toString36 (now w) ++ hd "" (entropy w))%string userData
                       (now w) (now w) in
  findOrCreateUser userData w =
    (Ok user,
     set_db (mkDB (users (db w) ++ [user]) (refreshTokens (db w)))
            (set_entropy (tl (entropy w)) w)).
Proof.
  intros Hfl Hf. destruct w as [[us rts] clock en fl]. simpl in *. subst fl.
  unfold_server. simpl. rewrite Hf. reflexivity.
Qed.

Lemma GoogleStrategy_verify_runs (profile : Profile.t) (w : World) e es a ps :
  Profile.emails profile = Some (e :: es) ->
  Profile.photos profile = Some (a :: ps) ->
  GoogleStrategy_verify profile w =
    findOrCreateUser (UserData.mk e None (Profile.displayName profile) google None
                                  (Some (Profile.id profile)) None (Some a)) w.
Proof.
  intros Hem Hph. unfold GoogleStrategy_verify, google_userData, first_value.
  rewrite Hem, Hph. reflexivity.
Qed.

Lemma GitHubStrategy_verify_runs (profile : Profile.t) (w : World) a ps :
  Profile.photos profile = Some (a :: ps) ->
  GitHubStrategy_verify profile w =
    findOrCreateUser
      (UserData.mk (github_email profile) None
         (Some (or_else (Profile.displayName profile) (Profile.username profile)))
         github None None (Some (Profile.id profile)) (Some a)) w.
Proof.
  intros Hph. unfold GitHubStrategy_verify, github_userData, first_value.
  rewrite Hph. reflexivity.
Qed.

Lemma find_unique_email (d : DB) (u : User.t) :
  unique_emails d ->
  In u (users d) ->
  find (fun x => (User.email x =? User.email u)%string) (users d) = Some u.
Proof.
  unfold unique_emails. induction (users d) as [|x us IH]; simpl; [intros _ []|].
  intros Hnd Hin. inversion Hnd as [|? ? Hx Hus]; subst.
  destruct (User.email x =? User.email u)%string eqn:E.
  - destruct Hin as [-> | Hin]; [reflexivity|].
    apply String.eqb_eq in E. exfalso. apply Hx. rewrite E.
    now apply in_map.
  - destruct Hin as [-> | Hin]; [rewrite String.eqb_refl in E; discriminate|].
    now apply IH.
Qed.

(** C6 — When the email of an external identity matches an existing
    User record, resolving it (through either strategy) returns that
    record's id, sets [updatedAt] to the clock, stores the calling
    provider's id and the avatar when they are supplied (non-empty), keeps
    [provider], [name] and the other provider's id, and replaces the
    record in place: no record is added and no other record changes. *)
Theorem external_identity_merges_into_existing_user :
  (forall profile w u es a ps,
      unique_emails (db w) ->
      In u (users (db w)) ->
      Profile.emails profile = Some (User.email u :: es) ->
      Profile.photos profile = Some (a :: ps) ->
      faults w = [] ->
      let u' := User.mk (User.id u) (User.email u) (User.password u) (User.name u)
                  (User.provider u) (User.isVerified u)
                  (if truthy (Some (Profile.id profile))
                   then Some (Profile.id profile) else User.googleId u)
                  (User.githubId u)
                  (if truthy (Some a) then Some a else User.avatar u)
                  (User.createdAt u) (now w) in
      exists w' l1 l2,
        GoogleStrategy_verify profile w = (Ok u', w')
        /\ users (db w) = (l1 ++ u :: l2)%list
        /\ users (db w') = (l1 ++ u' :: l2)%list
        /\ refreshTokens (db w') = refreshTokens (db w))
  /\ (forall profile w u a ps,
      unique_emails (db w) ->
      In u (users (db w)) ->
      github_email profile = User.email u ->
      Profile.photos profile = Some (a :: ps) ->
      faults w = [] ->
      let u' := User.mk (User.id u) (User.email u) (User.password u) (User.name u)
                  (User.provider u) (User.isVerified u)
                  (User.googleId u)
                  (if truthy (Some (Profile.id profile))
                   then Some (Profile.id profile) else User.githubId u)
                  (if truthy (Some a) then Some a else User.avatar u)
                  (User.createdAt u) (now w) in
      exists w' l1 l2,
        GitHubStrategy_verify profile w = (Ok u', w')
        /\ users (db w) = (l1 ++ u :: l2)%list
        /\ users (db w') = (l1 ++ u' :: l2)%list
        /\ refreshTokens (db w') = refreshTokens (db w)).
Proof.
  split.
  - intros profile w u es a ps Huniq Hin Hem Hph Hfl u'.
    pose proof (find_unique_email _ u Huniq Hin) as Hf.
    set (ud := UserData.mk (User.email u) None (Profile.displayName profile) google None
                           (Some (Profile.id profile)) None (Some a)).
    destruct (update_first_found _ (oauth_update ud (now w)) _ _ Hf)
      as (l1 & l2 & Hl & Hu & _).
    eexists _, l1, l2.
    rewrite (GoogleStrategy_verify_runs profile w (User.email u) es a ps Hem Hph).
    fold ud. rewrite (findOrCreateUser_existing ud w u Hfl Hf).
    split; [reflexivity|]. split; [exact Hl|]. split; [|reflexivity].
    simpl. exact Hu.
  - intros profile w u a ps Huniq Hin Hmail Hph Hfl u'.
    pose proof (find_unique_email _ u Huniq Hin) as Hf. rewrite <- Hmail in Hf.
    set (ud := UserData.mk (github_email profile) None
                 (Some (or_else (Profile.displayName profile) (Profile.username profile)))
                 github None None (Some (Profile.id profile)) (Some a)).
    destruct (update_first_found _ (oauth_update ud (now w)) _ _ Hf)
      as (l1 & l2 & Hl & Hu & _).
    eexists _, l1, l2.
    rewrite (GitHubStrategy_verify_runs profile w a ps Hph).
    fold ud. rewrite (findOrCreateUser_existing ud w u Hfl Hf).
    split; [reflexivity|]. split; [exact Hl|]. split; [|reflexivity].
    simpl. exact Hu.
Qed.

Lemma update_first_length {A} (p : A -> bool) (f : A -> A) (l : list A) :
  List.length (update_first p f l) = List.length l.
Proof.
  induction l as [|x l IH]; simpl; [reflexivity|].
  destruct (p x); simpl; [reflexivity | now rewrite IH].
Qed.

Lemma find_snoc_new (us : list User.t) (u : User.t) :
  find (fun x => (User.email x =? User.email u)%string) us = None ->
  find (fun x => (User.email x =? User.email u)%string) (us ++ [u]) = Some u.
Proof.
  induction us as [|x us IH]; simpl.
  - intros _. now rewrite String.eqb_refl.
  - destruct (User.email x =? User.email u)%string; [discriminate | exact IH].
Qed.

(** C10 — A GitHub callback whose profile exposes no public email is
    resolved under the email "<username>@github.local": when no User has
    that email one is created with it, and a later callback for the same
    profile finds that User again by the same synthetic email. *)
Theorem github_without_email_uses_synthetic_address
        (profile : Profile.t) (w : World) (a : string) (ps : list string) :
  truthy (first_value_opt (Profile.emails profile)) = false ->
  Profile.photos profile = Some (a :: ps) ->
  faults w = [] ->
  let synthetic := (Profile.username profile ++ "@github.local")%string in
  github_email profile = synthetic
  /\ (find (fun x => (User.email x =? synthetic)%string) (users (db w)) = None ->
      exists u w',
        GitHubStrategy_verify profile w = (Ok u, w')
        /\ User.email u = synthetic
        /\ User.provider u = github
        /\ User.githubId u = Some (Profile.id profile)
        /\ users (db w') = (users (db w) ++ [u])%list
        /\ forall w2, faults w2 = [] -> users (db w2) = users (db w') ->
             exists u2 w2',
               GitHubStrategy_verify profile w2 = (Ok u2, w2')
               /\ User.id u2 = User.id u /\ User.email u2 = synthetic
               /\ List.length (users (db w2')) = List.length (users (db w2)))
  /\ (forall u0,
        find (fun x => (User.email x =? synthetic)%string) (users (db w)) = Some u0 ->
        exists u w',
          GitHubStrategy_verify profile w = (Ok u, w')
          /\ User.id u = User.id u0 /\ User.email u = User.email u0).
Proof.
  intros Hno Hph Hfl synthetic.
  assert (Hmail : github_email profile = synthetic).
  { unfold github_email, synthetic.
    destruct (first_value_opt (Profile.emails profile)) as [s|]; simpl in *;
      [|reflexivity].
    destruct (s =? "")%string; [reflexivity | discriminate]. }
  set (ud := UserData.mk (github_email profile) None
               (Some (or_else (Profile.displayName profile) (Profile.username profile)))
               github None None (Some (Profile.id profile)) (Some a)).
  split; [exact Hmail|]. split.
  - intros Hnone. rewrite <- Hmail in Hnone.
    pose proof (findOrCreateUser_new ud w Hfl Hnone) as Hnew. simpl in Hnew.
    eexists _, _.
    rewrite (GitHubStrategy_verify_runs profile w a ps Hph). fold ud.
    split; [exact Hnew|].
    split; [exact Hmail|]. split; [reflexivity|]. split; [reflexivity|].
    split; [reflexivity|].
    intros w2 Hfl2 Husers.
    set (u := new_user (toString36 (now w) ++ hd "" (entropy w))%string ud (now w) (now w))
      in *.
    assert (Hf2 : find (fun x => (User.email x =? UserData.email ud)%string)
                       (users (db w2)) = Some u).
    { rewrite Husers. simpl. apply (find_snoc_new (users (db w)) u). exact Hnone. }
    eexists _, _.
    rewrite (GitHubStrategy_verify_runs profile w2 a ps Hph). fold ud.
    rewrite (findOrCreateUser_existing ud w2 u Hfl2 Hf2).
    split; [reflexivity|]. split; [reflexivity|]. split; [exact Hmail|].
    unfold set_db. cbn [db users]. apply update_first_length.
  - intros u0 Hsome. rewrite <- Hmail in Hsome.
    eexists _, _.
    rewrite (GitHubStrategy_verify_runs profile w a ps Hph). fold ud.
    rewrite (findOrCreateUser_existing ud w u0 Hfl Hsome).
    split; [reflexivity|]. split; reflexivity.
Qed.


(** *** Claims of the access tokens *)

Lemma issue_tokens_mints (user : User.t) (w : World) (tokens : Token * Token) (w' : World) :
  issue_tokens user w = (Ok tokens, w') ->
  tokens =
    (Jwt ACCESS_TOKEN_SECRET
         (access_claims (Some (User.id user)) (Some (User.email user)) (now w)),
     Jwt REFRESH_TOKEN_SECRET (refresh_claims (Some (User.id user)) (now w))).
Proof.
  destruct w as [[us rts] clock en fl]. unfold_server. simpl.
  repeat (break_match; simpl in * ); intros [= <- <-]; reflexivity.
Qed.

Lemma refresh_copies_refresh_claims (w : World) (uid : option string) (t0 : Z)
      (r : RefreshToken.t) :
  In r (refreshTokens (db w)) ->
  RefreshToken.token r = Jwt REFRESH_TOKEN_SECRET (refresh_claims uid t0) ->
  faults w = [] ->
  now w / 1000 < t0 / 1000 + 7 * 24 * 60 * 60 ->
  now w < RefreshToken.expiresAt r ->
  fst (post_refresh (Some (RefreshToken.token r)) w) =
    json 200 (JsonAccessToken (Jwt ACCESS_TOKEN_SECRET (access_claims uid None (now w)))).
Proof.
  intros Hin Ht Hfl Hjwt Hrow.
  rewrite (refresh_accepts w _ r Hin Ht); simpl; auto.
Qed.

(** *** Storage failures *)

Lemma refresh_never_server_error (cookies : option Token) (w : World) :
  status (fst (post_refresh cookies w)) = 200
  \/ status (fst (post_refresh cookies w)) = 401
  \/ status (fst (post_refresh cookies w)) = 403.
Proof.
  destruct w as [[us rts] clock en fl]. unfold_server. simpl.
  repeat (break_match; simpl in * ); auto.
Qed.

Lemma refresh_storage_failure (k : string) (c : Claims.t) (w : World) (msg : string) :
  hd None (faults w) = Some msg ->
  fst (post_refresh (Some (Jwt k c)) w) = invalid_refresh_token.
Proof.
  intros Hfl. destruct w as [[us rts] clock en fl]. simpl in Hfl.
  unfold_server. simpl.
  repeat (break_match; simpl in * ); try reflexivity; congruence.
Qed.

Lemma register_storage_failure (req : RegisterReq.t) (w : World) (msg : string) :
  RegisterReq.errors req = [] ->
  hd None (faults w) = Some msg ->
  status (fst (post_register req w)) = 500.
Proof.
  intros Herr Hfl. destruct w as [[us rts] clock en fl]. simpl in Hfl.
  unfold_server. simpl. rewrite Herr. simpl. rewrite Hfl. reflexivity.
Qed.

Lemma login_storage_failure (req : LoginReq.t) (w : World) (msg : string) :
  LoginReq.errors req = [] ->
  hd None (faults w) = Some msg ->
  fst (post_login req w) = json 500 (JsonError "Login failed").
Proof.
  intros Herr Hfl. destruct w as [[us rts] clock en fl]. simpl in Hfl.
  unfold_server. simpl. rewrite Herr. simpl. rewrite Hfl. reflexivity.
Qed.

Lemma logout_storage_failure (k : string) (c : Claims.t) (w : World) (msg : string) :
  hd None (faults w) = Some msg ->
  fst (post_logout (Some (Jwt k c)) w) = json 500 (JsonError "Logout failed").
Proof.
  intros Hfl. destruct w as [[us rts] clock en fl]. simpl in Hfl.
  unfold_server. simpl. rewrite Hfl. reflexivity.
Qed.

Lemma logout_all_storage_failure (user : User.t) (w : World) (msg : string) :
  hd None (faults w) = Some msg ->
  fst (post_logout_all user w) = json 500 (JsonError "Logout failed").
Proof.
  intros Hfl. destruct w as [[us rts] clock en fl]. simpl in Hfl.
  unfold_server. simpl. rewrite Hfl. reflexivity.
Qed.

(** A refresh token never outlives its store record: the signed [exp],
    in milliseconds, is at most the [expiresAt] written with it. *)
Lemma issued_token_expires_first (user : User.t) (w : World) (tokens : Token * Token)
      (w' : World) :
  issue_tokens user w = (Ok tokens, w') ->
  exists r c,
    refreshTokens (db w') = (refreshTokens (db w) ++ [r])%list
    /\ RefreshToken.token r = snd tokens
    /\ snd tokens = Jwt REFRESH_TOKEN_SECRET c
    /\ Claims.exp c * 1000 <= RefreshToken.expiresAt r.
Proof.
  destruct w as [[us rts] clock en fl]. unfold_server. simpl.
  repeat (break_match; simpl in * ); intros [= <- <-].
  all: eexists _, _; repeat split; simpl.
  all: unfold SEVEN_DAYS_MS; pose proof (Z.mul_div_le clock 1000); lia.
Qed.


(** *** Token codec: round trips and key separation *)

(** X1 — An access token verifies from the moment it is minted until
    its fifteen minutes, counted in whole clock seconds, are over, and
    decodes to the payload it was minted from; from then on it is refused
    with "Invalid access token".  Whatever the database holds plays no
    part. *)
Theorem access_token_round_trip (payload : Payload.t) (w w' : World) (t : Token) :
  fst (generateAccessToken payload w) = Ok t ->
  (now w' / 1000 < now w / 1000 + 15 * 60 ->
   verifyAccessToken t w' =
     (Ok (access_claims (Payload.userId payload) (Payload.email payload) (now w)), w'))
  /\ (now w / 1000 + 15 * 60 <= now w' / 1000 ->
      verifyAccessToken t w' = (Throw (JsError "Invalid access token"), w')).
Proof.
  intros Hmint. unfold generateAccessToken, jwt_sign, bind, ret, Date_now in Hmint.
  simpl in Hmint. injection Hmint as <-.
  unfold verifyAccessToken, jwt_verify, try_catch, bind, ret, throw, Date_now. simpl.
  rewrite String.eqb_refl. simpl. split; intros H.
  - match goal with |- context [?a <=? ?b] => destruct (Z.leb_spec a b) end;
      [lia | reflexivity].
  - match goal with |- context [?a <=? ?b] => destruct (Z.leb_spec a b) end;
      [reflexivity | lia].
Qed.

(** X2 — A refresh token that is still within its seven days is refused
    as an access token exactly when the two secrets differ: issuer and
    audience are the same for both kinds, so the secret is all that tells
    them apart. *)
Theorem refresh_token_as_access_token (payload : Payload.t) (w w' : World) (t : Token) :
  fst (generateRefreshToken payload w) = Ok t ->
  now w' / 1000 < now w / 1000 + 7 * 24 * 60 * 60 ->
  (ACCESS_TOKEN_SECRET <> REFRESH_TOKEN_SECRET ->
   verifyAccessToken t w' = (Throw (JsError "Invalid access token"), w'))
  /\ (ACCESS_TOKEN_SECRET = REFRESH_TOKEN_SECRET ->
      exists c, verifyAccessToken t w' = (Ok c, w')
                /\ Claims.userId c = Payload.userId payload).
Proof.
  intros Hmint Hlive. unfold generateRefreshToken, jwt_sign, bind, ret, Date_now in Hmint.
  simpl in Hmint. injection Hmint as <-.
  unfold verifyAccessToken, jwt_verify, try_catch, bind, ret, throw, Date_now. simpl.
  split; intros Hs.
  - apply not_eq_sym, String.eqb_neq in Hs. now rewrite Hs.
  - rewrite <- Hs, String.eqb_refl. simpl.
    match goal with |- context [?a <=? ?b] => destruct (Z.leb_spec a b) end;
      [lia|].
    eexists. split; reflexivity.
Qed.

(** *** Refresh: what it requires and what it leaves alone *)

(** X3 — Refresh answers 200 only to a JWT signed under the refresh
    secret, with the expected audience and issuer and an [exp] still
    ahead, for which the store holds a record that has not expired; the
    access token returned is then minted from that JWT's claims. *)
Theorem refresh_success_requires_live_record (cookies : option Token) (w : World) :
  status (fst (post_refresh cookies w)) = 200 ->
  exists c r,
    cookies = Some (Jwt REFRESH_TOKEN_SECRET c)
    /\ Claims.aud c = "secure-auth-client"
    /\ Claims.iss c = "secure-auth-app"
    /\ now w / 1000 < Claims.exp c
    /\ In r (refreshTokens (db w))
    /\ RefreshToken.token r = Jwt REFRESH_TOKEN_SECRET c
    /\ now w < RefreshToken.expiresAt r
    /\ fst (post_refresh cookies w) =
         json 200 (JsonAccessToken
                     (Jwt ACCESS_TOKEN_SECRET
                          (access_claims (Claims.userId c) (Claims.email c) (now w)))).
Proof.
  destruct w as [[us rts] clock en fl]. unfold_server. simpl.
  repeat (break_match; simpl in * ); intros H; try discriminate H.
  repeat match goal with
         | E : negb _ = false |- _ => apply negb_false_iff in E
         | E : (_ =? _)%string = true |- _ => apply String.eqb_eq in E
         end.
  subst.
  match goal with
  | E : find _ _ = Some ?r |- _ =>
      apply find_some in E; destruct E as [Hin Hp]; exists claims, r
  end.
  apply andb_true_iff in Hp as [Ht Hexp].
  apply Token_eqb_eq in Ht. apply Z.ltb_lt in Hexp.
  match goal with E : (_ <=? _) = false |- _ => apply Z.leb_gt in E end.
  repeat split; try assumption; try reflexivity.
Qed.



(** *** Logout: idempotent and local *)






(** *** What the routes answer *)



(** X9 — Where tokens and digests travel: the token in a response body
    is always one signed under the access secret; the refresh cookie, when
    set, always holds a token signed under the refresh secret, is
    HTTP-only, same-site strict, lives seven days and is secure exactly in
    production; and a user in a response body never has a password. *)
Theorem tokens_and_digests_in_responses (e : Event) (w : World) (resp : Response) :
  fst (step e w) = Some resp ->
  (forall t, body_token (body resp) = Some t ->
             exists c, t = Jwt ACCESS_TOKEN_SECRET c)
  /\ (forall n t opts, cookie resp = SetCookie n t opts ->
        n = "refreshToken"
        /\ (exists c, t = Jwt REFRESH_TOKEN_SECRET c)
        /\ opts = mkCookieOptions true
                    (option_eqb String.eqb (env_NODE_ENV env) (Some "production"))
                    "strict" SEVEN_DAYS_MS)
  /\ (forall u, body_user (body resp) = Some u -> User.password u = None).
Proof.
  destruct w as [[us rts] clock en fl]; destruct e.
  all: run_server.
  all: intros [= <-]; simpl.
  all: split; [|split].
  all: try (intros ? [= <-]; first [eexists; reflexivity | reflexivity]).
  all: try (intros ? ? ? [= <- <- <-]; split; [|split];
            first [reflexivity | eexists; reflexivity]).
  all: try (intros; discriminate).
Qed.


(** *** Registration: the success path and a failure half-way *)

Lemma register_runs (req : RegisterReq.t) (w : World) :
  RegisterReq.errors req = [] ->
  faults w = [] ->
  find (fun x => (User.email x =? RegisterReq.email req)%string) (users (db w)) = None ->
  let uid := (toString36 (now w) ++ hd "" (tl (entropy w)))%string in
  let user := User.mk uid (RegisterReq.email req)
                (Some (bcrypt_digest (RegisterReq.password req) 12 (hd "" (entropy w))))
                (Some (RegisterReq.name req)) local (Some true) None None None
                (now w) (now w) in
  let refreshToken := Jwt REFRESH_TOKEN_SECRET (refresh_claims (Some uid) (now w)) in
  let accessToken :=
    Jwt ACCESS_TOKEN_SECRET
        (access_claims (Some uid) (Some (RegisterReq.email req)) (now w)) in
  let record := RefreshToken.mk
                  (toString36 (now w) ++ hd "" (tl (tl (entropy w))))%string
                  uid refreshToken (now w) (now w + SEVEN_DAYS_MS) in
  post_register req w =
    (mkResponse 201
       (JsonAuth "User registered successfully" (without_password user) accessToken)
       (refresh_cookie refreshToken),
     mkWorld (mkDB (users (db w) ++ [user]) (refreshTokens (db w) ++ [record]))
             (now w) (tl (tl (tl (entropy w)))) []).
Proof.
  intros Herr Hfl Hfind. destruct w as [[us rts] clock en fl]. simpl in *. subst fl.
  unfold_server. simpl. rewrite Herr. simpl. rewrite Hfind. reflexivity.
Qed.

(** X10 — A valid registration of an email no User has, with the store
    working, is answered 201: one User is appended, local and verified,
    holding the bcrypt digest of the password; one refresh-token record
    owned by it is appended, expiring seven days later; the body carries
    that User without the digest and an access token that verifies and
    decodes to the new id and the email; the cookie carries the refresh
    token. *)
Theorem register_creates_account (req : RegisterReq.t) (w : World) :
  RegisterReq.errors req = [] ->
  faults w = [] ->
  find (fun x => (User.email x =? RegisterReq.email req)%string) (users (db w)) = None ->
  exists user record accessToken refreshToken,
    fst (post_register req w) =
      mkResponse 201
        (JsonAuth "User registered successfully" (without_password user) accessToken)
        (refresh_cookie refreshToken)
    /\ db (snd (post_register req w)) =
         mkDB (users (db w) ++ [user]) (refreshTokens (db w) ++ [record])
    /\ User.email user = RegisterReq.email req
    /\ User.name user = Some (RegisterReq.name req)
    /\ User.provider user = local
    /\ User.isVerified user = Some true
    /\ User.password user =
         Some (bcrypt_digest (RegisterReq.password req) 12 (hd "" (entropy w)))
    /\ RefreshToken.userId record = User.id user
    /\ RefreshToken.token record = refreshToken
    /\ RefreshToken.expiresAt record = now w + SEVEN_DAYS_MS
    /\ exists c,
         verifyAccessToken accessToken (snd (post_register req w))
         = (Ok c, snd (post_register req w))
         /\ Claims.userId c = Some (User.id user)
         /\ Claims.email c = Some (RegisterReq.email req).
Proof.
  intros Herr Hfl Hfind.
  rewrite (register_runs req w Herr Hfl Hfind). simpl.
  eexists _, _, _, _. repeat split.
  eexists. split.
  - unfold verifyAccessToken, jwt_verify, try_catch, bind, ret, throw, Date_now. simpl.
    rewrite String.eqb_refl. simpl.
    match goal with |- context [?a <=? ?b] => destruct (Z.leb_spec a b) end; [lia|].
    reflexivity.
  - split; reflexivity.
Qed.


(** X12 — Register then Login: when bcrypt accepts the digest it made
    (and the digest is a non-empty string), the account a registration
    created can log in with the same email and password, in any later
    state holding the same users, and gets the same user id. *)
Theorem register_then_login (req : RegisterReq.t) (w w2 : World) :
  RegisterReq.errors req = [] ->
  faults w = [] ->
  find (fun x => (User.email x =? RegisterReq.email req)%string) (users (db w)) = None ->
  let digest := bcrypt_digest (RegisterReq.password req) 12 (hd "" (entropy w)) in
  truthy (Some digest) = true ->
  bcrypt_compare (RegisterReq.password req) digest = true ->
  users (db w2) = users (db (snd (post_register req w))) ->
  faults w2 = [] ->
  exists u1 a1 u2 a2 c2,
    body (fst (post_register req w)) = JsonAuth "User registered successfully" u1 a1
    /\ fst (post_login
              (LoginReq.mk [] (RegisterReq.email req) (RegisterReq.password req)) w2)
       = mkResponse 200 (JsonAuth "Login successful" u2 a2) c2
    /\ User.id u2 = User.id u1
    /\ User.email u2 = RegisterReq.email req.
Proof.
  intros Herr Hfl Hfind digest Hdig Hcmp Husers Hfl2.
  rewrite (register_runs req w Herr Hfl Hfind) in *. simpl in Husers.
  set (user := User.mk (toString36 (now w) ++ hd "" (tl (entropy w)))%string
                 (RegisterReq.email req) (Some digest) (Some (RegisterReq.name req))
                 local (Some true) None None None (now w) (now w)) in *.
  assert (Hf2 : find (fun x => (User.email x =? RegisterReq.email req)%string)
                     (users (db w2)) = Some user).
  { rewrite Husers. apply (find_snoc_new (users (db w)) user). exact Hfind. }
  eexists _, _, _, _, _. split; [reflexivity|].
  rewrite (login_accepts (LoginReq.mk [] (RegisterReq.email req) (RegisterReq.password req))
                         w2 user eq_refl Hfl2 Hf2 Hdig Hcmp).
  split; [reflexivity|]. split; reflexivity.
Qed.


(** *** Database operations: insert then look up *)

Lemma find_update_first {A} (p : A -> bool) (f : A -> A) (l : list A) (x : A) :
  find p l = Some x -> p (f x) = true ->
  find p (update_first p f l) = Some (f x).
Proof.
  induction l as [|a l IH]; simpl; [discriminate|].
  destruct (p a) eqn:Hp.
  - intros [= ->] Hfx. simpl. now rewrite Hfx.
  - intros Hf Hfx. simpl. rewrite Hp. now apply IH.
Qed.

Lemma In_update_first {A} (p : A -> bool) (f : A -> A) (l : list A) (x : A) :
  find p l = Some x -> In (f x) (update_first p f l).
Proof.
  induction l as [|a l IH]; simpl; [discriminate|].
  destruct (p a) eqn:Hp.
  - intros [= ->]. now left.
  - intros Hf. right. now apply IH.
Qed.

(** X13 — Whenever [findOrCreateUser] returns a user, that user is what
    a lookup of the same email finds afterwards, whether the call created
    the record or updated an existing one. *)
Theorem findOrCreateUser_then_lookup
        (userData : UserData.t) (w : World) (u : User.t) (w' : World) :
  findOrCreateUser userData w = (Ok u, w') ->
  User.email u = UserData.email userData
  /\ In u (users (db w'))
  /\ forall w2, db w2 = db w' -> faults w2 = [] ->
       getUserByEmail (UserData.email userData) w2 = (Ok (Some u), w2).
Proof.
  intros Hrun.
  assert (Hfind : User.email u = UserData.email userData
                  /\ find (fun x => (User.email x =? UserData.email userData)%string)
                          (users (db w')) = Some u).
  { revert Hrun. destruct w as [[us rts] clock en fl]. unfold_server. simpl.
    repeat (break_match; simpl in * ); intros [= <- <-]; simpl.
    - match goal with
      | E : find _ us = Some ?x |- _ =>
          pose proof (find_some _ _ E) as [_ Hp]; simpl in Hp;
          apply String.eqb_eq in Hp; split; [exact Hp|];
          apply (find_update_first _ (oauth_update userData clock) us x E)
      end.
      simpl. apply String.eqb_eq. exact Hp.
    - split; [reflexivity|].
      match goal with
      | |- find _ (us ++ [?x]) = _ => apply (find_snoc_new us x)
      end.
      simpl. assumption. }
  destruct Hfind as [Hmail Hfind]. split; [exact Hmail|]. split.
  - now apply find_some in Hfind.
  - intros w2 Hdb Hfl. destruct w2 as [d2 clock2 en2 fl2]. simpl in *. subst d2 fl2.
    unfold_server. simpl. now rewrite Hfind.
Qed.

(** X14 — A refresh token that was saved is found by a lookup of its
    value for the seven days that follow, and not after: once the record
    has expired the lookup answers as if there were none, although the
    record is still in the store. *)
Theorem saved_token_found_until_expiry
        (userId : string) (t : Token) (w : World) (r : RefreshToken.t) (w' : World) :
  saveRefreshToken userId t w = (Ok r, w') ->
  RefreshToken.token r = t
  /\ RefreshToken.userId r = userId
  /\ RefreshToken.expiresAt r = now w + SEVEN_DAYS_MS
  /\ db w' = mkDB (users (db w)) (refreshTokens (db w) ++ [r])
  /\ forall w2, db w2 = db w' -> faults w2 = [] ->
       (now w2 < now w + SEVEN_DAYS_MS ->
        exists r', getRefreshToken t w2 = (Ok (Some r'), w2)
                   /\ RefreshToken.token r' = t)
       /\ (now w + SEVEN_DAYS_MS <= now w2 -> absent t (db w) ->
           getRefreshToken t w2 = (Ok None, w2)
           /\ In r (refreshTokens (db w2))).
Proof.
  intros Hrun.
  assert (Hr : r = RefreshToken.mk (RefreshToken.id r) userId t (now w)
                                   (now w + SEVEN_DAYS_MS)
               /\ db w' = mkDB (users (db w)) (refreshTokens (db w) ++ [r])).
  { revert Hrun. destruct w as [[us rts] clock en fl]. unfold_server. simpl.
    repeat (break_match; simpl in * ); intros [= <- <-]; split; reflexivity. }
  destruct Hr as [Hr Hdb].
  assert (Htok : RefreshToken.token r = t) by (rewrite Hr; reflexivity).
  assert (Hexp : RefreshToken.expiresAt r = now w + SEVEN_DAYS_MS)
    by (rewrite Hr; reflexivity).
  split; [exact Htok|]. split; [rewrite Hr; reflexivity|].
  split; [exact Hexp|]. split; [exact Hdb|].
  intros w2 Hdb2 Hfl2.
  assert (Hin : In r (refreshTokens (db w2))).
  { rewrite Hdb2, Hdb. simpl. apply in_or_app. right. now left. }
  destruct w2 as [d2 clock2 en2 fl2]. simpl in *. subst fl2. split.
  - intros Hlive.
    destruct (find_live_token t clock2 (refreshTokens d2) r Hin Htok) as (r' & Hf);
      [lia|].
    exists r'. split.
    + unfold_server. simpl. now rewrite Hf.
    + apply find_some in Hf as [_ Hp]. apply andb_true_iff in Hp as [Hp _].
      now apply Token_eqb_eq.
  - intros Hdead Habs. split; [|exact Hin].
    unfold_server. simpl.
    destruct (find _ (refreshTokens d2)) as [r'|] eqn:Hf; [|reflexivity].
    exfalso. apply find_some in Hf as [Hin' Hp].
    apply andb_true_iff in Hp as [Ht Hlt].
    apply Token_eqb_eq in Ht. apply Z.ltb_lt in Hlt.
    rewrite Hdb2, Hdb in Hin'. simpl in Hin'.
    apply in_app_or in Hin' as [Hold | [<- | []]].
    + now apply (Habs r').
    + lia.
Qed.


(** *** Login: tokens of one clock second *)

Lemma login_runs (req : LoginReq.t) (w : World) (u : User.t) :
  LoginReq.errors req = [] -> faults w = [] ->
  find (fun x => (User.email x =? LoginReq.email req)%string) (users (db w)) = Some u ->
  truthy (User.password u) = true ->
  bcrypt_compare (LoginReq.password req) (js_string (User.password u)) = true ->
  let refreshToken := Jwt REFRESH_TOKEN_SECRET (refresh_claims (Some (User.id u)) (now w)) in
  snd (post_login req w) =
    mkWorld (mkDB (users (db w))
                  (refreshTokens (db w) ++
                   [RefreshToken.mk (toString36 (now w) ++ hd "" (entropy w))%string
                                    (User.id u) refreshToken (now w)
                                    (now w + SEVEN_DAYS_MS)]))
            (now w) (tl (entropy w)) [].
Proof.
  intros Herr Hfl Hf Hp Hc. destruct w as [[us rts] t en fl]. simpl in *. subst fl.
  unfold_server. simpl. rewrite Herr. simpl. rewrite Hf. simpl.
  rewrite Hp. simpl. rewrite Hc. reflexivity.
Qed.

(** X15 — Refresh tokens are distinguished by user and clock second
    only: two logins of one user within the same second hand out the same
    refresh token value, stored in two records, and a single Logout
    presenting it removes both. *)
Theorem logins_in_one_second_share_a_token
        (req : LoginReq.t) (w : World) (u : User.t) (elapsed : Z) (rnd : list string) :
  LoginReq.errors req = [] -> faults w = [] ->
  find (fun x => (User.email x =? LoginReq.email req)%string) (users (db w)) = Some u ->
  truthy (User.password u) = true ->
  bcrypt_compare (LoginReq.password req) (js_string (User.password u)) = true ->
  0 <= elapsed ->
  (now w + elapsed) / 1000 = now w / 1000 ->
  let first := post_login req w in
  let second := post_login req (environment elapsed rnd [] (snd first)) in
  let holds t := fun rt => Token_eqb (RefreshToken.token rt) t in
  exists t,
    issued (Some (fst first)) = Some t
    /\ issued (Some (fst second)) = Some t
    /\ List.length (filter (holds t) (refreshTokens (db (snd second))))
       = S (S (List.length (filter (holds t) (refreshTokens (db w)))))
    /\ forall w3, db w3 = db (snd second) ->
         status (fst (post_logout (Some t) w3)) = 200 ->
         absent t (db (snd (post_logout (Some t) w3))).
Proof.
  intros Herr Hfl Hf Hp Hc Hpos Hsec first second holds.
  pose proof (login_accepts req w u Herr Hfl Hf Hp Hc) as Hr1.
  pose proof (login_runs req w u Herr Hfl Hf Hp Hc) as Hw1. cbv zeta in Hw1.
  fold first in Hr1, Hw1.
  set (w1 := environment elapsed rnd [] (snd first)) in *.
  assert (Hnow1 : now w1 = now w + elapsed).
  { unfold w1, environment. rewrite Hw1. simpl. lia. }
  assert (Hf1 : find (fun x => (User.email x =? LoginReq.email req)%string)
                     (users (db w1)) = Some u).
  { unfold w1, environment. rewrite Hw1. simpl. exact Hf. }
  assert (Hfl1 : faults w1 = []) by reflexivity.
  pose proof (login_accepts req w1 u Herr Hfl1 Hf1 Hp Hc) as Hr2.
  pose proof (login_runs req w1 u Herr Hfl1 Hf1 Hp Hc) as Hw2. cbv zeta in Hw2.
  fold second in Hr2, Hw2.
  assert (Hclaims : refresh_claims (Some (User.id u)) (now w1)
                    = refresh_claims (Some (User.id u)) (now w)).
  { unfold refresh_claims. now rewrite Hnow1, Hsec. }
  rewrite Hclaims in Hr2, Hw2.
  exists (Jwt REFRESH_TOKEN_SECRET (refresh_claims (Some (User.id u)) (now w))).
  split; [rewrite Hr1; reflexivity|]. split; [rewrite Hr2; reflexivity|]. split.
  - assert (Hrts1 : refreshTokens (db w1) =
                     (refreshTokens (db w) ++
                      [RefreshToken.mk (toString36 (now w) ++ hd "" (entropy w))%string
                         (User.id u)
                         (Jwt REFRESH_TOKEN_SECRET (refresh_claims (Some (User.id u)) (now w)))
                         (now w) (now w + SEVEN_DAYS_MS)])%list).
    { unfold w1, environment. rewrite Hw1. reflexivity. }
    rewrite Hw2. cbn [db refreshTokens]. rewrite Hrts1.
    rewrite !filter_app, !length_app. unfold holds.
    cbn [filter RefreshToken.token]. rewrite Token_eqb_refl.
    cbn [List.length]. lia.
  - intros w3 Hdb Hdone. now apply logout_removes.
Qed.

(** *** OAuth: profiles, accounts and the callback *)

(** X16 — The Google strategy reads the first email and the first photo
    of the profile unguarded, and the GitHub strategy the first photo: a
    profile without them ends the callback with an error passed on, and
    nothing is read from or written to the store. *)
Theorem oauth_profile_without_fields_is_an_error (profile : Profile.t) (w : World) :
  let failure := TypeError "Cannot read properties of undefined" in
  (first_value_opt (Profile.emails profile) = None
   \/ first_value_opt (Profile.photos profile) = None ->
   get_google_callback profile w = (json 500 (NextError failure), w))
  /\ (first_value_opt (Profile.photos profile) = None ->
      get_github_callback profile w = (json 500 (NextError failure), w)).
Proof.
  destruct profile as [pid uname dname ems phs]. simpl. split.
  - intros [H | H]; unfold_server; simpl;
      destruct ems as [[|e es]|], phs as [[|p ps]|]; simpl in *;
      try discriminate; reflexivity.
  - intros H. unfold_server. simpl.
    destruct phs as [[|p ps]|]; simpl in *; try discriminate; reflexivity.
Qed.

(** X17 — An account created by a Google sign-in has no password
    digest, so a password login for its email is answered "Invalid
    credentials" whatever password is given. *)
Theorem oauth_account_has_no_password_login
        (profile : Profile.t) (w w2 : World) (e : string) (es : list string)
        (a : string) (ps : list string) (pw : string) :
  Profile.emails profile = Some (e :: es) ->
  Profile.photos profile = Some (a :: ps) ->
  faults w = [] ->
  find (fun x => (User.email x =? e)%string) (users (db w)) = None ->
  users (db w2) = users (db (snd (GoogleStrategy_verify profile w))) ->
  faults w2 = [] ->
  (exists u, fst (GoogleStrategy_verify profile w) = Ok u
             /\ User.email u = e /\ User.provider u = google
             /\ User.password u = None)
  /\ post_login (LoginReq.mk [] e pw) w2 = (invalid_credentials, w2).
Proof.
  intros Hem Hph Hfl Hfind Husers Hfl2.
  set (ud := UserData.mk e None (Profile.displayName profile) google None
                         (Some (Profile.id profile)) None (Some a)).
  rewrite (GoogleStrategy_verify_runs profile w e es a ps Hem Hph) in *. fold ud in Husers.
  pose proof (findOrCreateUser_new ud w Hfl Hfind) as Hnew. simpl in Hnew.
  fold ud. rewrite Hnew in *. simpl in Husers. split.
  - eexists. repeat split.
  - apply login_rejects; [reflexivity | exact Hfl2 |].
    right. left. eexists. split.
    + simpl. rewrite Husers.
      apply (find_snoc_new (users (db w))
               (new_user (toString36 (now w) ++ hd "" (entropy w))%string ud
                         (now w) (now w))).
      exact Hfind.
    + reflexivity.
Qed.



(** *** Invariants of every reachable state *)

Lemma step_users_detail (e : Event) (w : World) :
  users (db (snd (step e w))) = users (db w)
  \/ (exists x, users (db (snd (step e w))) = (users (db w) ++ [x])%list)
  \/ (exists p userData t,
        users (db (snd (step e w))) = update_first p (oauth_update userData t) (users (db w))).
Proof.
  destruct w as [[us rts] clock en fl]; destruct e.
  all: run_server.
  all: try (left; reflexivity).
  all: try (right; left; eexists; reflexivity).
  all: right; right; eexists _, _, _; reflexivity.
Qed.

Lemma same_account_refl (u : User.t) : same_account u u.
Proof. repeat split. Qed.


Lemma update_first_same_account (p : User.t -> bool) (userData : UserData.t) (t : Z)
      (l : list User.t) (u : User.t) :
  In u l ->
  exists u', In u' (update_first p (oauth_update userData t) l) /\ same_account u u'.
Proof.
  induction l as [|x l IH]; simpl; [intros []|].
  intros [-> | Hin].
  - destruct (p u).
    + exists (oauth_update userData t u). split; [now left | repeat split].
    + exists u. split; [now left | apply same_account_refl].
  - destruct (p x).
    + exists u. split; [now right | apply same_account_refl].
    + destruct (IH Hin) as (u' & Hin' & Hsame). exists u'. split; [now right | exact Hsame].
Qed.

Lemma step_users_frame (e : Event) (w : World) (u : User.t) :
  In u (users (db w)) ->
  exists u', In u' (users (db (snd (step e w)))) /\ same_account u u'.
Proof.
  intros Hin.
  destruct (step_users_detail e w) as [E | [(x & E) | (p & ud & t & E)]]; rewrite E.
  - exists u. split; [assumption | apply same_account_refl].
  - exists u. split; [apply in_or_app; now left | apply same_account_refl].
  - now apply update_first_same_account.
Qed.

Lemma step_tokens_detail (e : Event) (w : World) :
  refreshTokens (db (snd (step e w))) = refreshTokens (db w)
  \/ (exists p, refreshTokens (db (snd (step e w))) = filter p (refreshTokens (db w)))
  \/ (exists r, refreshTokens (db (snd (step e w))) = (refreshTokens (db w) ++ [r])%list
                /\ record_consistent (db (snd (step e w))) r).
Proof.
  destruct w as [[us rts] clock en fl]; destruct e.
  all: run_server.
  all: try (left; reflexivity).
  all: try (right; left; eexists; reflexivity).
  all: right; right; eexists; split; [reflexivity|].
  all: unfold record_consistent; simpl; split; [|split; [reflexivity|]].
  all: try (eexists; repeat split; simpl;
            unfold SEVEN_DAYS_MS; pose proof (Z.mul_div_le clock 1000); lia).
  all: first
    [ eexists; split; [apply in_or_app; right; left; reflexivity | reflexivity]
    | match goal with
      | E : find _ _ = Some ?x |- _ =>
          exists x; split; [exact (proj1 (find_some _ _ E)) | reflexivity]
      end
    | match goal with
      | E : find _ _ = Some ?x |- _ =>
          eexists; split; [eapply In_update_first; exact E | reflexivity]
      end ].
Qed.

Lemma step_store_consistent (e : Event) (w : World) :
  store_consistent (db w) -> store_consistent (db (snd (step e w))).
Proof.
  intros Hinv r Hin.
  assert (Hold : forall r0, In r0 (refreshTokens (db w)) ->
                            record_consistent (db (snd (step e w))) r0).
  { intros r0 Hin0. destruct (Hinv r0 Hin0) as ((u & Hu & Hid) & Hrest).
    split; [|exact Hrest].
    destruct (step_users_frame e w u Hu) as (u' & Hu' & Hsame).
    exists u'. split; [assumption|]. destruct Hsame as [Hsame _]. congruence. }
  destruct (step_tokens_detail e w) as [E | [(p & E) | (r' & E & Hnew)]];
    rewrite E in Hin.
  - now apply Hold.
  - apply filter_In in Hin as [Hin _]. now apply Hold.
  - apply in_app_or in Hin as [Hin | [<- | []]]; [now apply Hold | exact Hnew].
Qed.

(** X19 — In every state the subsystem can reach from an empty
    database, each refresh-token record belongs to an existing User,
    expires seven days after its creation, and holds a token signed under
    the refresh secret for that owner, with [userId] as its only payload
    and an [exp] no later than the record's [expiresAt]. *)
Theorem reachable_store_is_consistent (es : list Event) (w : World) (r : RefreshToken.t) :
  db w = emptyDB ->
  In r (refreshTokens (db (run es w))) ->
  record_consistent (db (run es w)) r.
Proof.
  intros Hempty. revert r.
  assert (Hinit : store_consistent (db w)) by (rewrite Hempty; intros r []).
  clear Hempty. revert w Hinit.
  induction es as [|e es IH]; intros w Hinit; simpl; [exact Hinit|].
  apply IH. now apply step_store_consistent.
Qed.




End Server.

(** ** A concrete run

    A server with an empty environment, a stand-in for bcrypt, and the
    worlds reached by registering "a@x.com" at clock 1500 ms. *)

Definition sample_env : ProcessEnv := mkEnv None None None None.

Definition sample_digest (pw : string) (saltRounds : Z) (salt : string) : string :=
  ("$2a$12$" ++ pw)%string.

Definition sample_compare (pw digest : string) : bool :=
  (digest =? "$2a$12$" ++ pw)%string.

Definition sample_register : RegisterReq.t :=
  RegisterReq.mk [] "a@x.com" "Abc12345!" "A".

Definition sample_login : LoginReq.t :=
  LoginReq.mk [] "a@x.com" "Abc12345!".

Definition world0 : World := mkWorld emptyDB 1500 ["salt"; "k3j9x"; "p0q1r"] [].

Definition registered : Response * World :=
  post_register sample_env sample_digest sample_register world0.

Definition world1 : World := snd registered.

Definition sample_user : User.t :=
  User.mk "15ok3j9x" "a@x.com" (Some "$2a$12$Abc12345!") (Some "A") local (Some true)
          None None None 1500 1500.

Definition sample_refresh_token : Token :=
  Jwt "refresh-token-secret"
      (Claims.mk (Some "15ok3j9x") None 1 604801 "secure-auth-client" "secure-auth-app").

Definition sample_record : RefreshToken.t :=
  RefreshToken.mk "15op0q1r" "15ok3j9x" sample_refresh_token 1500 604801500.

Example registered_world :
  world1 = mkWorld (mkDB [sample_user] [sample_record]) 1500 [] []
  /\ issued (Some (fst registered)) = Some sample_refresh_token.
Proof. vm_compute. split; reflexivity. Qed.

Definition sample_google : Profile.t :=
  Profile.mk "g-1" "alice" (Some "Alice") (Some ["a@x.com"]) (Some ["https://img/a.png"]).

Definition sample_github : Profile.t :=
  Profile.mk "583231" "octocat" None None (Some ["https://img/o.png"]).

(** The clock 1.2 s after the sample token's signed [exp] second began,
    0.3 s before its record's [expiresAt]. *)
Definition world_late : World :=
  environment 604799700 [] [] world1.

(** The sample world with the file system about to fail. *)
Definition world_faulty : World :=
  set_faults [Some "EIO: i/o error, read"] world1.

(** ** The claims at the concrete run *)

Lemma refresh_reusable_witness :
  post_refresh sample_env (Some sample_refresh_token) world1 =
    (json 200 (JsonAccessToken
                 (Jwt "access-token-secret" (access_claims (Some "15ok3j9x") None 1500))),
     world1)
  /\ forall n,
      run sample_env sample_digest sample_compare
          (repeat (Refresh (Some sample_refresh_token)) n) world1 = world1.
Proof.
  apply (refresh_reusable_while_token_unexpired
           sample_env sample_digest sample_compare
           world1 world0 (Payload.mk (Some "15ok3j9x") None) sample_record).
  - reflexivity.
  - simpl. left. reflexivity.
  - reflexivity.
  - vm_compute. reflexivity.
  - vm_compute. reflexivity.
Defined.

(** C1, as stated, fails: the sample token was issued and stored, its
    record is in the store and the clock is before the record's
    [expiresAt], no file-system fault is pending, and Refresh answers 403. *)
Lemma refresh_rejected_before_expiresAt :
  issued (Some (fst registered)) = Some sample_refresh_token
  /\ In sample_record (refreshTokens (db world_late))
  /\ RefreshToken.token sample_record = sample_refresh_token
  /\ faults world_late = []
  /\ now world_late < RefreshToken.expiresAt sample_record
  /\ fst (post_refresh sample_env (Some sample_refresh_token) world_late)
     = json 403 (JsonError "Invalid refresh token").
Proof.
  repeat split.
  - vm_compute. left. reflexivity.
Qed.

(** C2 — The access token minted on the Refresh path carries no [email]
    claim, although its owner has an email: the payload is copied from the
    decoded refresh token, which was signed with [userId] only. *)
Theorem refresh_access_token_lacks_email :
  In sample_user (users (db world1))
  /\ User.email sample_user = "a@x.com"
  /\ exists c,
       fst (post_refresh sample_env (Some sample_refresh_token) world1)
       = json 200 (JsonAccessToken (Jwt "access-token-secret" c))
       /\ Claims.userId c = Some (User.id sample_user)
       /\ Claims.email c = None.
Proof.
  split; [left; reflexivity|]. split; [reflexivity|].
  eexists. split; [vm_compute; reflexivity|]. split; reflexivity.
Qed.

(** C3 — A storage failure during Refresh is answered 403 "Invalid
    refresh token", the response of a bad token, while the same failure
    during Logout is answered 500; without the failure the same Refresh
    succeeds. *)
Theorem refresh_reports_storage_failure_as_invalid_token :
  fst (post_refresh sample_env (Some sample_refresh_token) world_faulty)
  = json 403 (JsonError "Invalid refresh token")
  /\ status (fst (post_refresh sample_env (Some sample_refresh_token) world1)) = 200
  /\ fst (post_logout (Some sample_refresh_token) world_faulty)
     = json 500 (JsonError "Logout failed").
Proof. repeat split. Qed.

Lemma logout_then_refresh_witness :
  let es := [Environment 5000 ["x1"] []; Login sample_login;
             Refresh (Some sample_refresh_token)] in
  let w1 := snd (post_logout (Some sample_refresh_token) world1) in
  let w2 := run sample_env sample_digest sample_compare es w1 in
  fst (post_refresh sample_env (Some sample_refresh_token) w2) = invalid_refresh_token
  /\ (faults w2 = [] -> getRefreshToken sample_refresh_token w2 = (Ok None, w2)).
Proof.
  intros es w1 w2.
  apply (logout_then_refresh_rejected sample_env sample_digest sample_compare
           world1 sample_record es).
  - intros r [<- | []]. eexists. split; reflexivity.
  - simpl. left. reflexivity.
  - reflexivity.
  - vm_compute. repeat split; intros H; discriminate H.
Defined.


Lemma external_identity_witness :
  exists u' w',
    GoogleStrategy_verify sample_google world1 = (Ok u', w')
    /\ User.id u' = User.id sample_user
    /\ User.provider u' = local
    /\ User.name u' = Some "A"
    /\ User.googleId u' = Some "g-1"
    /\ User.githubId u' = None
    /\ User.avatar u' = Some "https://img/a.png"
    /\ users (db w') = [u'].
Proof.
  assert (Huniq : unique_emails (db world1)).
  { unfold unique_emails. simpl. constructor; [intros [] | constructor]. }
  destruct (proj1 (external_identity_merges_into_existing_user)
                  sample_google world1 sample_user [] "https://img/a.png" []
                  Huniq (or_introl eq_refl) eq_refl eq_refl eq_refl)
    as (w' & l1 & l2 & Hrun & Hold & Hnew & _).
  destruct l1 as [|x l1]; [|destruct l1; discriminate Hold].
  injection Hold as <-.
  eexists _, w'. split; [exact Hrun|]. repeat split. exact Hnew.
Defined.

Lemma login_witness :
  fst (post_login sample_env sample_compare sample_login world1) =
    mkResponse 200
      (JsonAuth "Login successful" (without_password sample_user)
         (Jwt "access-token-secret"
              (access_claims (Some "15ok3j9x") (Some "a@x.com") 1500)))
      (refresh_cookie sample_env
         (Jwt "refresh-token-secret" (refresh_claims (Some "15ok3j9x") 1500)))
  /\ post_login sample_env sample_compare (LoginReq.mk [] "a@x.com" "wrong") world1
     = (invalid_credentials, world1)
  /\ post_login sample_env sample_compare (LoginReq.mk [] "b@x.com" "Abc12345!") world1
     = (invalid_credentials, world1).
Proof.
  split; [|split].
  - destruct (proj2 (login_invalid_credentials_exactly sample_env sample_compare
                       sample_login world1) eq_refl eq_refl) as (_ & Hok).
    apply (Hok sample_user); reflexivity.
  - destruct (proj2 (login_invalid_credentials_exactly sample_env sample_compare
                       (LoginReq.mk [] "a@x.com" "wrong") world1) eq_refl eq_refl)
      as (Hfail & _).
    apply Hfail. right. right. exists sample_user. repeat split.
  - destruct (proj2 (login_invalid_credentials_exactly sample_env sample_compare
                       (LoginReq.mk [] "b@x.com" "Abc12345!") world1) eq_refl eq_refl)
      as (Hfail & _).
    apply Hfail. left. reflexivity.
Defined.


Lemma github_synthetic_witness :
  github_email sample_github = "octocat@github.local"
  /\ exists u w',
      GitHubStrategy_verify sample_github world1 = (Ok u, w')
      /\ User.email u = "octocat@github.local"
      /\ users (db w') = [sample_user; u]
      /\ exists u2 w2',
           GitHubStrategy_verify sample_github (environment 86400000 [] [] w') = (Ok u2, w2')
           /\ User.id u2 = User.id u.
Proof.
  destruct (github_without_email_uses_synthetic_address
              sample_github world1 "https://img/o.png" [] eq_refl eq_refl eq_refl)
    as (Hmail & Hnew & _).
  split; [exact Hmail|].
  destruct (Hnew eq_refl) as (u & w' & Hrun & He & _ & _ & Hus & Hlater).
  exists u, w'. split; [exact Hrun|]. split; [exact He|]. split; [exact Hus|].
  destruct (Hlater (environment 86400000 [] [] w') eq_refl eq_refl)
    as (u2 & w2' & Hrun2 & Hid & _).
  exists u2, w2'. split; [exact Hrun2 | exact Hid].
Defined.

(** ** The client session agent *)

(** A server that has no refresh cookie to accept and no valid access
    token to honour: every exchange is answered 401. *)
Definition always_401 : nat -> Client.Config -> Client.HttpResponse :=
  fun _ _ => Client.mkHttp 401 None.

(** A server that answers 401 to the first [k] exchanges and 403 after. *)
Definition unauthorized_until (k : nat) : nat -> Client.Config -> Client.HttpResponse :=
  fun n _ => if (n <? k)%nat then Client.mkHttp 401 None else Client.mkHttp 403 None.

Definition profile_request : Client.Config :=
  Client.mkConfig (Client.API_BASE_URL ++ "/user/profile")%string "get" None false false.

Definition stale_session : Client.State :=
  Client.mkState (Some "expired.access.token") (Some "expired.access.token") None [].

Lemma attach_keeps_retry (st : Client.State) (c : Client.Config) :
  Client._retry (Client.attach st c) = Client._retry c.
Proof. unfold Client.attach. destruct (truthy (Client.token st)); reflexivity. Qed.

Lemma attach_after_hold (t : option string) (st : Client.State) (c : Client.Config) :
  Client.attach (Client.hold t st) (Client.set_authorization (Client.bearer t) c)
  = Client.set_authorization (Client.bearer t) c.
Proof. unfold Client.attach. simpl. destruct (truthy t); reflexivity. Qed.

Lemma axios_unfold (server : nat -> Client.Config -> Client.HttpResponse)
      (fuel : nat) (config : Client.Config) (st : Client.State) :
  Client.axios server (S fuel) config st =
    let sent_config := Client.attach st config in
    let response := server (List.length (Client.wire st)) sent_config in
    let st1 := Client.sent sent_config st in
    if Client.is_2xx (Client.http_status response) then Some (Client.Resolved response, st1)
    else if (Client.http_status response =? 401) && negb (Client._retry sent_config) then
      match Client.axios server fuel Client.refresh_request st1 with
      | None => None
      | Some (Client.Resolved refreshed, st2) =>
          Client.axios server fuel
            (Client.set_authorization (Client.bearer (Client.accessToken refreshed))
                                      (Client.set_retry sent_config))
            (Client.hold (Client.accessToken refreshed) st2)
      | Some (Client.Rejected refreshError, st2) =>
          Some (Client.Rejected refreshError, Client.drop_session st2)
      end
    else Some (Client.Rejected response, st1).
Proof. reflexivity. Qed.

Lemma axios_resolves (server : nat -> Client.Config -> Client.HttpResponse)
      (fuel : nat) (config : Client.Config) (st : Client.State) :
  let response := server (List.length (Client.wire st)) (Client.attach st config) in
  Client.is_2xx (Client.http_status response) = true ->
  Client.axios server (S fuel) config st =
    Some (Client.Resolved response, Client.sent (Client.attach st config) st).
Proof. intros response H. rewrite axios_unfold. cbv zeta. fold response. now rewrite H. Qed.

(** A call that was already retried, or that fails otherwise than with
    401, is rejected without any further request. *)
Lemma axios_rejects (server : nat -> Client.Config -> Client.HttpResponse)
      (fuel : nat) (config : Client.Config) (st : Client.State) :
  let response := server (List.length (Client.wire st)) (Client.attach st config) in
  Client.is_2xx (Client.http_status response) = false ->
  Client._retry config = true \/ Client.http_status response <> 401 ->
  Client.axios server (S fuel) config st =
    Some (Client.Rejected response, Client.sent (Client.attach st config) st).
Proof.
  intros response H2xx Hwhy. rewrite axios_unfold. cbv zeta. fold response.
  rewrite H2xx, attach_keeps_retry.
  destruct Hwhy as [Hretry | Hstatus].
  - rewrite Hretry. simpl. now rewrite andb_false_r.
  - apply Z.eqb_neq in Hstatus. now rewrite Hstatus.
Qed.

Lemma length_sent (c : Client.Config) (st : Client.State) :
  List.length (Client.wire (Client.sent c st)) = S (List.length (Client.wire st)).
Proof. unfold Client.sent. simpl. rewrite length_app. simpl. lia. Qed.

(** X22 — A first 401 followed by a successful refresh: one refresh request,
    the new token held and stored, and one replay carrying it, whose
    answer settles the call whatever its status. *)
Lemma agent_refreshes_and_replays_once
      (server : nat -> Client.Config -> Client.HttpResponse)
      (fuel : nat) (config : Client.Config) (st : Client.State) :
  let n := List.length (Client.wire st) in
  let first := Client.attach st config in
  let st1 := Client.sent first st in
  let refresh := Client.attach st1 Client.refresh_request in
  let refreshed := server (S n) refresh in
  let st2 := Client.hold (Client.accessToken refreshed) (Client.sent refresh st1) in
  let replay := Client.set_authorization (Client.bearer (Client.accessToken refreshed))
                                         (Client.set_retry first) in
  let answer := server (S (S n)) replay in
  Client._retry config = false ->
  Client.http_status (server n first) = 401 ->
  Client.is_2xx (Client.http_status refreshed) = true ->
  Client.axios server (S (S fuel)) config st =
    Some (if Client.is_2xx (Client.http_status answer)
          then Client.Resolved answer else Client.Rejected answer,
          Client.sent replay st2).
Proof.
  intros n first st1 refresh refreshed st2 replay answer Hretry H401 H200.
  assert (Hlen1 : List.length (Client.wire st1) = S n) by apply length_sent.
  assert (Hlen2 : List.length (Client.wire st2) = S (S n)).
  { unfold st2, Client.hold. cbn [Client.wire]. rewrite length_sent. now rewrite Hlen1. }
  assert (Hattach : Client.attach st2 replay = replay) by apply attach_after_hold.
  rewrite axios_unfold. cbv zeta. fold n first st1. rewrite H401.
  replace (Client.is_2xx 401) with false by reflexivity.
  unfold first at 1. rewrite attach_keeps_retry, Hretry.
  replace ((401 =? 401) && negb false) with true by reflexivity.
  rewrite (axios_resolves server fuel Client.refresh_request st1)
    by (rewrite Hlen1; exact H200).
  rewrite Hlen1. fold refresh refreshed st2 replay.
  destruct (Client.is_2xx (Client.http_status answer)) eqn:Hans.
  - rewrite (axios_resolves server fuel replay st2)
      by (rewrite Hlen2, Hattach; exact Hans).
    now rewrite Hlen2, Hattach.
  - rewrite (axios_rejects server fuel replay st2).
    + now rewrite Hlen2, Hattach.
    + rewrite Hlen2, Hattach. exact Hans.
    + left. reflexivity.
Qed.

(** X23 — A first 401 followed by a refresh that fails otherwise than with
    401: one refresh request, then the token is dropped and the browser
    sent to the login page. *)
Lemma agent_gives_up_when_refresh_is_refused
      (server : nat -> Client.Config -> Client.HttpResponse)
      (fuel : nat) (config : Client.Config) (st : Client.State) :
  let n := List.length (Client.wire st) in
  let first := Client.attach st config in
  let st1 := Client.sent first st in
  let refresh := Client.attach st1 Client.refresh_request in
  let refused := server (S n) refresh in
  Client._retry config = false ->
  Client.http_status (server n first) = 401 ->
  Client.is_2xx (Client.http_status refused) = false ->
  Client.http_status refused <> 401 ->
  Client.axios server (S (S fuel)) config st =
    Some (Client.Rejected refused, Client.drop_session (Client.sent refresh st1)).
Proof.
  intros n first st1 refresh refused Hretry H401 Hnot2xx Hnot401.
  assert (Hlen1 : List.length (Client.wire st1) = S n) by apply length_sent.
  rewrite axios_unfold. cbv zeta. fold n first st1. rewrite H401.
  replace (Client.is_2xx 401) with false by reflexivity.
  unfold first at 1. rewrite attach_keeps_retry, Hretry.
  replace ((401 =? 401) && negb false) with true by reflexivity.
  rewrite (axios_rejects server fuel Client.refresh_request st1).
  - now rewrite Hlen1.
  - rewrite Hlen1. exact Hnot2xx.
  - right. rewrite Hlen1. exact Hnot401.
Qed.

(** When the refresh request itself is answered 401, the error handler
    runs for it too and sends another refresh request, and so on: against
    a server that answers 401 throughout, no amount of fuel lets the call
    settle. *)
Lemma agent_never_settles_on_401 (fuel : nat) (config : Client.Config) (st : Client.State) :
  Client._retry config = false ->
  Client.axios always_401 fuel config st = None.
Proof.
  revert config st. induction fuel as [|fuel IH]; intros config st Hretry;
    [reflexivity|].
  rewrite axios_unfold. cbv zeta. unfold always_401 at 1 2. simpl Client.http_status.
  replace (Client.is_2xx 401) with false by reflexivity.
  rewrite attach_keeps_retry, Hretry.
  replace ((401 =? 401) && negb false) with true by reflexivity.
  now rewrite IH.
Qed.

(** C9 — With an expired access token and no refresh cookie the server
    answers 401 to the call and to every refresh request; the agent then
    never settles the call, whatever the fuel.  Against a server that
    turns to 403 only from the fourth exchange on, one call makes three
    refresh requests before it gives up. *)
Theorem agent_repeats_refresh_on_401 :
  (forall fuel, Client.axios always_401 fuel profile_request stale_session = None)
  /\ exists answer st,
       Client.axios (unauthorized_until 3) 10 profile_request stale_session
       = Some (Client.Rejected answer, st)
       /\ Client.refresh_attempts st = 3%nat
       /\ Client.sends_of (Client.url profile_request) st = 1%nat.
Proof.
  split.
  - intros fuel. now apply agent_never_settles_on_401.
  - eexists _, _. split; [vm_compute; reflexivity|]. split; reflexivity.
Qed.

(** X24 — An answer other than 401 passes through the agent untouched:
    one request on the wire, resolved when the status is 2xx and rejected
    otherwise, and neither the held token, nor the stored one, nor the
    page location changes. *)
Theorem agent_passes_through_other_answers
        (server : nat -> Client.Config -> Client.HttpResponse)
        (fuel : nat) (config : Client.Config) (st : Client.State) :
  let request := Client.attach st config in
  let response := server (List.length (Client.wire st)) request in
  Client.http_status response <> 401 ->
  Client.axios server (S fuel) config st =
    Some (if Client.is_2xx (Client.http_status response)
          then Client.Resolved response else Client.Rejected response,
          Client.mkState (Client.token st) (Client.stored st) (Client.location st)
                         (Client.wire st ++ [request])).
Proof.
  intros request response Hnot401.
  destruct (Client.is_2xx (Client.http_status response)) eqn:H2xx.
  - now rewrite (axios_resolves server fuel config st H2xx).
  - rewrite (axios_rejects server fuel config st H2xx); [reflexivity|].
    right. exact Hnot401.
Qed.

(** ** The authentication context (contexts/AuthContext.tsx) and the
    OAuth landing page (pages/OAuthCallback.tsx)

    The React state [user] and [loading], the last [navigate] target, and
    the [AuthService] singleton the context drives. *)

Module AuthContext.

Record State : Type := mkContext {
  service : Client.State;
  user : option User.t;
  loading : bool;
  route : option string
}.

Inductive Settled : Type :=
| Fulfilled
| Thrown (error : Client.HttpResponse).

Definition login_request : Client.Config :=
  Client.mkConfig (Client.API_BASE_URL ++ "/auth/login")%string "post" None true false.

Definition register_request : Client.Config :=
  Client.mkConfig (Client.API_BASE_URL ++ "/auth/register")%string "post" None true false.

Definition logout_request : Client.Config :=
  Client.mkConfig (Client.API_BASE_URL ++ "/auth/logout")%string "post" None true false.

Definition getProfile_request : Client.Config :=
  Client.mkConfig (Client.API_BASE_URL ++ "/user/profile")%string "get" None false false.

Definition with_service (s : Client.State) (st : State) : State :=
  mkContext s (user st) (loading st) (route st).

(** [localStorage.removeItem('accessToken'); authService.clearToken()]. *)
Definition forget (s : Client.State) : Client.State :=
  Client.mkState None None (Client.location s) (Client.wire s).

(** [localStorage.removeItem('accessToken')] alone. *)
Definition unstore (s : Client.State) : Client.State :=
  Client.mkState (Client.token s) None (Client.location s) (Client.wire s).


(** [authService.setToken(t)] alone. *)
Definition setToken (t : option string) (s : Client.State) : Client.State :=
  Client.mkState t (Client.stored s) (Client.location s) (Client.wire s).

Section Provider.

Variable server : nat -> Client.Config -> Client.HttpResponse.

(** The [user] property of a reply's data, which [Client.HttpResponse]
    leaves out. *)
Variable data_user : Client.HttpResponse -> option User.t.

(** [login] and [register] differ by the request only. *)
Definition sign_in (request : Client.Config) (fuel : nat) (st : State)
  : option (Settled * State) :=
  match Client.axios server fuel request (service st) with
  | None => None
  | Some (Client.Resolved response, s) =>
      Some (Fulfilled,
            mkContext (Client.hold (Client.accessToken response) s)
                      (data_user response) (loading st) (route st))
  | Some (Client.Rejected error, s) => Some (Thrown error, with_service s st)
  end.

Definition login : nat -> State -> option (Settled * State) := sign_in login_request.

Definition register : nat -> State -> option (Settled * State) := sign_in register_request.

Definition logout (fuel : nat) (st : State) : option (Settled * State) :=
  match Client.axios server fuel logout_request (service st) with
  | None => None
  | Some (Client.Resolved _, s) =>
      Some (Fulfilled, mkContext (forget s) None (loading st) (route st))
  | Some (Client.Rejected _, s) => Some (Fulfilled, with_service s st)
  end.

Definition refreshToken (fuel : nat) (st : State) : option (Settled * State) :=
  match Client.axios server fuel Client.refresh_request (service st) with
  | None => None
  | Some (Client.Resolved response, s) =>
      Some (Fulfilled, with_service (Client.hold (Client.accessToken response) s) st)
  | Some (Client.Rejected _, s) => logout fuel (with_service s st)
  end.

(** The effect run when the provider mounts. *)
Definition initAuth (fuel : nat) (st : State) : option State :=
  let finally (x : State) := mkContext (service x) (user x) false (route x) in
  if truthy (Client.stored (service st)) then
    match Client.axios server fuel getProfile_request
                       (setToken (Client.stored (service st)) (service st)) with
    | None => None
    | Some (Client.Resolved response, s) =>
        Some (finally (mkContext s (data_user response) (loading st) (route st)))
    | Some (Client.Rejected _, s) => Some (finally (with_service (unstore s) st))
    end
  else Some (finally st).



End Provider.

End AuthContext.

(** X25 — When the server refuses the logout request (any status other
    than 2xx and 401), the context's [logout] still returns normally and
    the session stays as it was: token held, token stored and user are
    untouched. *)
Theorem context_logout_refused_keeps_session
        (server : nat -> Client.Config -> Client.HttpResponse)
        (fuel : nat) (st : AuthContext.State) :
  let request := Client.attach (AuthContext.service st) AuthContext.logout_request in
  let response := server (List.length (Client.wire (AuthContext.service st))) request in
  Client.is_2xx (Client.http_status response) = false ->
  Client.http_status response <> 401 ->
  AuthContext.logout server (S fuel) st =
    Some (AuthContext.Fulfilled,
          AuthContext.with_service (Client.sent request (AuthContext.service st)) st).
Proof.
  intros request response H2xx H401. unfold AuthContext.logout.
  rewrite (axios_rejects server fuel AuthContext.logout_request (AuthContext.service st)
                         H2xx (or_intror H401)).
  reflexivity.
Qed.

(** X26 — When the server refuses the refresh request (other than by
    401), the context's [refreshToken] goes on to log out: a logout
    request follows the refresh request, and once it is accepted the
    token held, the token stored and the user are all cleared. *)
Theorem context_refresh_refused_logs_out
        (server : nat -> Client.Config -> Client.HttpResponse)
        (fuel : nat) (st : AuthContext.State) :
  let s0 := AuthContext.service st in
  let refresh := Client.attach s0 Client.refresh_request in
  let s1 := Client.sent refresh s0 in
  let bye := Client.attach s1 AuthContext.logout_request in
  let refused := server (List.length (Client.wire s0)) refresh in
  let accepted := server (S (List.length (Client.wire s0))) bye in
  Client.is_2xx (Client.http_status refused) = false ->
  Client.http_status refused <> 401 ->
  Client.is_2xx (Client.http_status accepted) = true ->
  AuthContext.refreshToken server (S fuel) st =
    Some (AuthContext.Fulfilled,
          AuthContext.mkContext (AuthContext.forget (Client.sent bye s1)) None
                                (AuthContext.loading st) (AuthContext.route st)).
Proof.
  intros s0 refresh s1 bye refused accepted Hno H401 Hyes.
  unfold AuthContext.refreshToken. fold s0.
  rewrite (axios_rejects server fuel Client.refresh_request s0 Hno (or_intror H401)).
  fold refresh s1. unfold AuthContext.logout. cbn [AuthContext.service AuthContext.with_service].
  assert (Hlen : List.length (Client.wire s1) = S (List.length (Client.wire s0)))
    by apply length_sent.
  rewrite (axios_resolves server fuel AuthContext.logout_request s1)
    by (rewrite Hlen; exact Hyes).
  reflexivity.
Qed.


(** X28 — When the provider mounts with a stored token and the profile
    request is refused (other than by 401), the stored token is removed
    but the same token stays held by the service, so later requests still
    carry it; the user is not set and loading ends. *)
Theorem init_auth_failure_keeps_held_token
        (server : nat -> Client.Config -> Client.HttpResponse)
        (data_user : Client.HttpResponse -> option User.t)
        (fuel : nat) (st : AuthContext.State) :
  let s0 := AuthContext.setToken (Client.stored (AuthContext.service st))
                                 (AuthContext.service st) in
  let request := Client.attach s0 AuthContext.getProfile_request in
  let response := server (List.length (Client.wire s0)) request in
  truthy (Client.stored (AuthContext.service st)) = true ->
  Client.is_2xx (Client.http_status response) = false ->
  Client.http_status response <> 401 ->
  AuthContext.initAuth server data_user (S fuel) st =
    Some (AuthContext.mkContext
            (Client.mkState (Client.stored (AuthContext.service st)) None
                            (Client.location (AuthContext.service st))
                            (Client.wire (AuthContext.service st) ++ [request]))
            (AuthContext.user st) false (AuthContext.route st))
  /\ Client.authorization request
     = Client.bearer (Client.stored (AuthContext.service st)).
Proof.
  intros s0 request response Hstored H2xx H401. split.
  - unfold AuthContext.initAuth. rewrite Hstored. fold s0.
    rewrite (axios_rejects server fuel AuthContext.getProfile_request s0
                           H2xx (or_intror H401)).
    reflexivity.
  - unfold request, Client.attach, s0. simpl. now rewrite Hstored.
Qed.

(** ** Further properties at the concrete run *)

Definition sample_access_token : Token :=
  Jwt "access-token-secret" (access_claims (Some "15ok3j9x") (Some "a@x.com") 1500).

Definition sample_other_google : Profile.t :=
  Profile.mk "g-2" "bob" (Some "Bob") (Some ["b@x.com"]) (Some ["https://img/b.png"]).

Definition sample_github_userData : UserData.t :=
  UserData.mk "octocat@github.local" None (Some "octocat") github None
              None (Some "583231") (Some "https://img/o.png").

Definition sample_github_user : User.t :=
  User.mk "15o" "octocat@github.local" None (Some "octocat") github None
          None (Some "583231") (Some "https://img/o.png") 1500 1500.

Definition sample_raw_record : RefreshToken.t :=
  RefreshToken.mk "15o" "15ok3j9x" (Raw "opaque") 1500 604801500.


Lemma access_token_round_trip_witness :
  verifyAccessToken sample_env sample_access_token world1
  = (Ok (access_claims (Some "15ok3j9x") (Some "a@x.com") 1500), world1)
  /\ verifyAccessToken sample_env sample_access_token (environment 900000 [] [] world1)
     = (Throw (JsError "Invalid access token"), environment 900000 [] [] world1).
Proof.
  split.
  - apply (proj1 (access_token_round_trip sample_env
                    (Payload.mk (Some "15ok3j9x") (Some "a@x.com"))
                    world0 world1 sample_access_token eq_refl)).
    vm_compute. reflexivity.
  - apply (proj2 (access_token_round_trip sample_env
                    (Payload.mk (Some "15ok3j9x") (Some "a@x.com"))
                    world0 (environment 900000 [] [] world1) sample_access_token eq_refl)).
    vm_compute. intros H. discriminate H.
Defined.

Lemma refresh_token_as_access_token_witness :
  verifyAccessToken sample_env sample_refresh_token world1
  = (Throw (JsError "Invalid access token"), world1).
Proof.
  apply (proj1 (refresh_token_as_access_token sample_env
                  (Payload.mk (Some "15ok3j9x") None)
                  world0 world1 sample_refresh_token eq_refl eq_refl)).
  intros H. vm_compute in H. discriminate H.
Defined.

Lemma refresh_success_witness :
  exists r, In r (refreshTokens (db world1))
            /\ RefreshToken.token r = sample_refresh_token
            /\ now world1 < RefreshToken.expiresAt r.
Proof.
  destruct (refresh_success_requires_live_record sample_env
              (Some sample_refresh_token) world1 eq_refl)
    as (c & r & Hc & _ & _ & _ & Hin & Ht & Hexp & _).
  exists r. injection Hc as <-. repeat split; assumption.
Defined.



Lemma tokens_and_digests_witness :
  (exists c, body_token (body (fst registered))
             = Some (Jwt (ACCESS_TOKEN_SECRET sample_env) c))
  /\ (exists u, body_user (body (fst registered)) = Some u /\ User.password u = None).
Proof.
  destruct (tokens_and_digests_in_responses sample_env sample_digest sample_compare
              (Register sample_register) world0 (fst registered) eq_refl)
    as (Htok & _ & Huser).
  split.
  - destruct (Htok sample_access_token eq_refl) as (c & Hc). exists c. now rewrite <- Hc.
  - eexists. split; [reflexivity|]. apply Huser. reflexivity.
Defined.

Lemma register_creates_account_witness :
  exists user record,
    db world1 = mkDB [user] [record]
    /\ User.email user = "a@x.com"
    /\ User.password user = Some "$2a$12$Abc12345!"
    /\ RefreshToken.userId record = User.id user.
Proof.
  destruct (register_creates_account sample_env sample_digest sample_register world0
              eq_refl eq_refl eq_refl)
    as (user & record & a & r & _ & Hdb & Hmail & _ & _ & _ & Hpw & Hown & _).
  exists user, record. repeat split; assumption.
Defined.


Lemma register_then_login_witness :
  exists u2 a2 c2,
    fst (post_login sample_env sample_compare
                    (LoginReq.mk [] "a@x.com" "Abc12345!") world1)
    = mkResponse 200 (JsonAuth "Login successful" u2 a2) c2
    /\ User.id u2 = "15ok3j9x".
Proof.
  destruct (register_then_login sample_env sample_digest sample_compare
              sample_register world0 world1 eq_refl eq_refl eq_refl eq_refl eq_refl
              eq_refl eq_refl)
    as (u1 & a1 & u2 & a2 & c2 & H1 & H2 & Hid & _).
  exists u2, a2, c2. split; [exact H2|].
  rewrite Hid. injection H1 as <- _. reflexivity.
Defined.

Lemma findOrCreateUser_then_lookup_witness :
  In sample_github_user (users (db (snd (findOrCreateUser sample_github_userData world1))))
  /\ getUserByEmail "octocat@github.local"
                    (snd (findOrCreateUser sample_github_userData world1))
     = (Ok (Some sample_github_user), snd (findOrCreateUser sample_github_userData world1)).
Proof.
  destruct (findOrCreateUser_then_lookup sample_github_userData world1 sample_github_user
              (snd (findOrCreateUser sample_github_userData world1)) eq_refl)
    as (_ & Hin & Hlook).
  split; [exact Hin|]. apply Hlook; reflexivity.
Defined.

Lemma saved_token_witness :
  (exists r', getRefreshToken (Raw "opaque")
                (snd (saveRefreshToken "15ok3j9x" (Raw "opaque") world1))
              = (Ok (Some r'), snd (saveRefreshToken "15ok3j9x" (Raw "opaque") world1))
              /\ RefreshToken.token r' = Raw "opaque")
  /\ getRefreshToken (Raw "opaque")
       (environment SEVEN_DAYS_MS [] []
          (snd (saveRefreshToken "15ok3j9x" (Raw "opaque") world1)))
     = (Ok None,
        environment SEVEN_DAYS_MS [] []
          (snd (saveRefreshToken "15ok3j9x" (Raw "opaque") world1))).
Proof.
  destruct (saved_token_found_until_expiry "15ok3j9x" (Raw "opaque") world1
              sample_raw_record
              (snd (saveRefreshToken "15ok3j9x" (Raw "opaque") world1)) eq_refl)
    as (_ & _ & _ & _ & Hlookup).
  split.
  - apply (Hlookup _ eq_refl eq_refl). vm_compute. reflexivity.
  - apply (Hlookup (environment SEVEN_DAYS_MS [] []
                      (snd (saveRefreshToken "15ok3j9x" (Raw "opaque") world1)))
                   eq_refl eq_refl).
    + vm_compute. intros H. discriminate H.
    + intros r [<- | []]. discriminate.
Defined.

Lemma logins_in_one_second_witness :
  exists t,
    issued (Some (fst (post_login sample_env sample_compare sample_login world1))) = Some t
    /\ issued (Some (fst (post_login sample_env sample_compare sample_login
                            (environment 300 ["z9"] []
                               (snd (post_login sample_env sample_compare sample_login
                                                world1))))))
       = Some t.
Proof.
  destruct (logins_in_one_second_share_a_token sample_env sample_compare
              sample_login world1 sample_user 300 ["z9"]
              eq_refl eq_refl eq_refl eq_refl eq_refl)
    as (t & H1 & H2 & _).
  - vm_compute. intros H. discriminate H.
  - reflexivity.
  - exists t. split; assumption.
Defined.

Lemma oauth_account_witness :
  post_login sample_env sample_compare (LoginReq.mk [] "b@x.com" "anything")
             (snd (GoogleStrategy_verify sample_other_google world1))
  = (invalid_credentials, snd (GoogleStrategy_verify sample_other_google world1)).
Proof.
  apply (oauth_account_has_no_password_login sample_env sample_compare
           sample_other_google world1
           (snd (GoogleStrategy_verify sample_other_google world1))
           "b@x.com" [] "https://img/b.png" [] "anything");
    reflexivity.
Defined.

Lemma reachable_store_witness :
  record_consistent sample_env
    (db (run sample_env sample_digest sample_compare [Register sample_register] world0))
    sample_record.
Proof.
  apply (reachable_store_is_consistent sample_env sample_digest sample_compare
           [Register sample_register] world0 sample_record).
  - reflexivity.
  - vm_compute. left. reflexivity.
Defined.


(** ** The client at concrete servers *)

(** 401 to the first exchange, then 200 with a new access token. *)
Definition server_accepting_refresh : nat -> Client.Config -> Client.HttpResponse :=
  fun n _ => match n with
             | O => Client.mkHttp 401 None
             | S O => Client.mkHttp 200 (Some "fresh.access.token")
             | _ => Client.mkHttp 200 None
             end.

(** 403 to the first exchange, then 200. *)
Definition server_refusing_first : nat -> Client.Config -> Client.HttpResponse :=
  fun n _ => match n with
             | O => Client.mkHttp 403 None
             | _ => Client.mkHttp 200 None
             end.

Definition server_down : nat -> Client.Config -> Client.HttpResponse :=
  fun _ _ => Client.mkHttp 500 None.

Definition no_user : Client.HttpResponse -> option User.t := fun _ => None.

Definition signed_in : AuthContext.State :=
  AuthContext.mkContext stale_session (Some sample_user) false None.

Definition returning_visitor : AuthContext.State :=
  AuthContext.mkContext (Client.mkState None (Some "stored.access.token") None [])
                        None true None.

Lemma agent_refreshes_and_replays_witness :
  exists st,
    Client.axios server_accepting_refresh 2 profile_request stale_session
    = Some (Client.Resolved (Client.mkHttp 200 None), st)
    /\ Client.token st = Some "fresh.access.token"
    /\ Client.refresh_attempts st = 1%nat
    /\ Client.sends_of (Client.url profile_request) st = 2%nat.
Proof.
  eexists. split.
  - apply (agent_refreshes_and_replays_once server_accepting_refresh 0
             profile_request stale_session); reflexivity.
  - repeat split.
Defined.

Lemma agent_gives_up_witness :
  exists st,
    Client.axios (unauthorized_until 1) 2 profile_request stale_session
    = Some (Client.Rejected (Client.mkHttp 403 None), st)
    /\ Client.token st = None
    /\ Client.location st = Some "/login"
    /\ Client.refresh_attempts st = 1%nat.
Proof.
  eexists. split.
  - apply (agent_gives_up_when_refresh_is_refused (unauthorized_until 1) 0
             profile_request stale_session); try reflexivity.
    intros H. discriminate H.
  - repeat split.
Defined.

Lemma agent_passes_through_witness :
  exists st,
    Client.axios server_down 1 profile_request stale_session
    = Some (Client.Rejected (Client.mkHttp 500 None), st)
    /\ Client.token st = Client.token stale_session
    /\ List.length (Client.wire st) = 1%nat.
Proof.
  eexists. split.
  - apply (agent_passes_through_other_answers server_down 0 profile_request stale_session).
    intros H. discriminate H.
  - repeat split.
Defined.

Lemma context_logout_refused_witness :
  exists st,
    AuthContext.logout server_down 1 signed_in = Some (AuthContext.Fulfilled, st)
    /\ Client.token (AuthContext.service st) = Some "expired.access.token"
    /\ AuthContext.user st = Some sample_user.
Proof.
  eexists. split.
  - apply (context_logout_refused_keeps_session server_down 0 signed_in);
      [reflexivity | intros H; discriminate H].
  - split; reflexivity.
Defined.

Lemma context_refresh_refused_witness :
  exists st,
    AuthContext.refreshToken server_refusing_first 1 signed_in
    = Some (AuthContext.Fulfilled, st)
    /\ Client.token (AuthContext.service st) = None
    /\ Client.stored (AuthContext.service st) = None
    /\ AuthContext.user st = None
    /\ List.length (Client.wire (AuthContext.service st)) = 2%nat.
Proof.
  eexists. split.
  - apply (context_refresh_refused_logs_out server_refusing_first 0 signed_in);
      [reflexivity | intros H; discriminate H | reflexivity].
  - repeat split.
Defined.


Lemma init_auth_failure_witness :
  exists st,
    AuthContext.initAuth server_down no_user 1 returning_visitor = Some st
    /\ Client.token (AuthContext.service st) = Some "stored.access.token"
    /\ Client.stored (AuthContext.service st) = None
    /\ AuthContext.loading st = false.
Proof.
  eexists. split.
  - apply (proj1 (init_auth_failure_keeps_held_token server_down no_user 0
                    returning_visitor eq_refl eq_refl
                    (fun H => ltac:(discriminate H)))).
  - repeat split.
Defined.
